(** * Course search tools: result formatting, source tracking, tool registry

    A shallow embedding of [backend/search_tools.py]: the two tools
    ([CourseSearchTool], [CourseOutlineTool]) and the [ToolManager] that
    registers and dispatches them.  Objects are records, methods are
    functions that take the object and return the updated object next to
    their outcome, and a call that can raise returns an [outcome]. *)

From Stdlib Require Import ZArith Ascii String List DecimalString Permutation Sorted Lia.
From stdpp Require Import gmap strings list.

Open Scope Z_scope.

(** ** Python values, truthiness and string formatting *)

Module Py.

(** The values a tool argument can take: the tool schemas declare strings
    and integers, and an omitted optional argument is [None]. *)
Inductive value : Type :=
| PyNone
| PyStr (s : string)
| PyInt (z : Z).

(** [bool(v)], the test behind [if v:]. *)
Definition truthy (v : value) : bool :=
  match v with
  | PyNone => false
  | PyStr s => negb (String.eqb s "")
  | PyInt z => negb (z =? 0)
  end.

(** [str(n)] for an integer: decimal digits, a leading minus sign. *)
Definition str_int (z : Z) : string := NilZero.string_of_int (Z.to_int z).

(** [str(v)], which is also what [f"{v}"] interpolates. *)
Definition str (v : value) : string :=
  match v with
  | PyNone => "None"
  | PyStr s => s
  | PyInt z => str_int z
  end.

(** Truthiness of an [Optional[str]]: [None] and [""] are false. *)
Definition truthy_opt (o : option string) : bool :=
  match o with
  | Some s => negb (String.eqb s "")
  | None => false
  end.

(** The line feed character, as a string. *)
Definition nl : string := String (Ascii.ascii_of_nat 10) EmptyString.

(** [sep.join(parts)]. *)
Definition join (sep : string) (parts : list string) : string :=
  String.concat sep parts.

(** An exception object: its class name, whether the class derives from
    [Exception] (what [except Exception] catches), and [str(e)]. *)
Record exn : Type := Exn {
  exn_class : string;
  exn_is_Exception : bool;
  exn_str : string
}.

(** The outcome of a call: a returned value or a raised exception. *)
Inductive outcome (A : Type) : Type :=
| Return (a : A)
| Raise (e : exn).
Arguments Return {A} a.
Arguments Raise {A} e.

Definition bind {A B : Type} (c : outcome A) (k : A -> outcome B) : outcome B :=
  match c with
  | Return a => k a
  | Raise e => Raise e
  end.

(** [try: c  except Exception as e: h e]. An exception whose class does
    not derive from [Exception] passes through. *)
Definition try_except {A : Type} (c : outcome A) (h : exn -> outcome A) : outcome A :=
  match c with
  | Return a => Return a
  | Raise e => if exn_is_Exception e then h e else Raise e
  end.

Definition ValueError (msg : string) : exn := Exn "ValueError" true msg.

(** The interpreter's [TypeError] for a call whose keyword arguments do
    not fit the signature. Its message text is not modelled. *)
Definition TypeError : exn := Exn "TypeError" true "".

End Py.
Import Py.

Notation "x <- c ;; k" := (Py.bind c (fun x => k))
  (at level 100, c at next level, right associativity, only parsing).

(** ** The vector store interface (the collaborator in [vector_store.py]) *)

(** The metadata dict of one hit. The tools read three keys; a field is
    [None] when the key is absent. Titles and links are strings and lesson
    numbers integers, as the ingestion side stores them. *)
Record Meta : Type := {
  meta_course_title : option string;
  meta_lesson_number : option Z;
  meta_lesson_link : option string
}.

(** [SearchResults]: parallel sequences of documents and metadata plus an
    optional error string. The distances are never read by the tools and
    are left out. *)
Record SearchResults : Type := {
  documents : list string;
  metadata : list Meta;
  error : option string
}.

(** Modelled from the spec: [SearchResults.is_empty] lives in
    [vector_store.py], which is not part of the sources at hand; the spec
    speaks of a search "returning no documents". *)
Definition is_empty (results : SearchResults) : bool :=
  match documents results with
  | [] => true
  | _ :: _ => false
  end.

(** One lesson of a course catalog entry (an element of [lessons_json]). *)
Record Lesson : Type := {
  lesson_number : option Z;
  lesson_title : option string
}.

(** The metadata dict of a course catalog entry. *)
Record CatalogMetadata : Type := {
  cat_title : option string;
  cat_course_link : option string;
  cat_lessons_json : option string
}.

(** The store operations the tools call. [course_catalog_get ids] stands
    for [course_catalog.get(ids=ids)] followed by reading its
    ["metadatas"] entry: [None] when the result is empty or has no such
    entry. *)
Record VectorStore : Type := {
  search : value -> value -> value -> outcome SearchResults;
  _resolve_course_name : value -> outcome (option string);
  course_catalog_get : list string -> outcome (option (list CatalogMetadata))
}.

(** A source object [{"text": ..., "link": ...}] kept for citations. *)
Record Source : Type := {
  text : string;
  link : option string
}.

(** ** CourseSearchTool *)

Module CourseSearchTool.

Record t : Type := {
  store : VectorStore;
  last_sources : list Source
}.

Definition __init__ (vector_store : VectorStore) : t :=
  {| store := vector_store; last_sources := [] |}.

Definition set_last_sources (self : t) (sources : list Source) : t :=
  {| store := store self; last_sources := sources |}.

(** The body of the [for doc, meta in zip(...)] loop: it appends one
    entry to [formatted] and one to [sources]. *)
Definition format_step (acc : list string * list Source) (hit : string * Meta)
  : list string * list Source :=
  let '(formatted, sources) := acc in
  let '(doc, meta) := hit in
  let course_title := default "unknown" (meta_course_title meta) in
  let lesson_num := meta_lesson_number meta in
  let lesson_link := meta_lesson_link meta in
  let header := "[" +:+ course_title in
  let header :=
    match lesson_num with
    | Some n => header +:+ " - Lesson " +:+ str_int n
    | None => header
    end in
  let header := header +:+ "]" in
  let source_text := course_title in
  let source_text :=
    match lesson_num with
    | Some n => source_text +:+ " - Lesson " +:+ str_int n
    | None => source_text
    end in
  let source_obj :=
    {| text := source_text;
       link := if truthy_opt lesson_link then lesson_link else None |} in
  (formatted ++ [header +:+ nl +:+ doc], sources ++ [source_obj]).

(** [_format_results]: runs the loop over the zipped hits, stores the
    sources on the tool and returns the joined blocks. The debug print
    of the sources has no effect on the tool or on the returned string
    and is not modelled. *)
Definition _format_results (self : t) (results : SearchResults) : string * t :=
  let '(formatted, sources) :=
    fold_left format_step (zip (documents results) (metadata results)) ([], []) in
  (join (nl +:+ nl) formatted, set_last_sources self sources).

(** [execute(query, course_name=None, lesson_number=None)]. *)
Definition execute (self : t) (query course_name lesson_number : value)
  : outcome string * t :=
  match search (store self) query course_name lesson_number with
  | Raise e => (Raise e, self)
  | Return results =>
      if truthy_opt (error results) then
        (Return (default "" (error results)), self)
      else if is_empty results then
        let filter_info := "" in
        let filter_info :=
          if truthy course_name
          then filter_info +:+ " in course '" +:+ str course_name +:+ "'"
          else filter_info in
        let filter_info :=
          if truthy lesson_number
          then filter_info +:+ " in lesson " +:+ str lesson_number
          else filter_info in
        (Return ("No relevant content found" +:+ filter_info +:+ "."), self)
      else
        let '(s, self') := _format_results self results in
        (Return s, self')
  end.

End CourseSearchTool.

(** ** CourseOutlineTool *)

(** [sorted(xs, key=key)]: a stable sort, ascending in the key. An element
    is put in front of the first later element whose key is not smaller. *)
Fixpoint insert_by {A : Type} (key : A -> Z) (x : A) (l : list A) : list A :=
  match l with
  | [] => [x]
  | y :: ys => if key x <=? key y then x :: y :: ys else y :: insert_by key x ys
  end.

Definition sorted {A : Type} (key : A -> Z) (l : list A) : list A :=
  foldr (insert_by key) [] l.

Module CourseOutlineTool.

Record t : Type := {
  store : VectorStore
}.

Definition __init__ (vector_store : VectorStore) : t :=
  {| store := vector_store |}.

(** The sort key [lambda x: x.get("lesson_number", 0)]. *)
Definition lesson_key (x : Lesson) : Z := default 0 (lesson_number x).

(** The line appended for one lesson. *)
Definition lesson_line (lesson : Lesson) : string :=
  let lesson_num :=
    match lesson_number lesson with
    | Some n => str_int n
    | None => "N/A"
    end in
  let title := default "Untitled" (lesson_title lesson) in
  "  Lesson " +:+ lesson_num +:+ ": " +:+ title.

Section Execute.

(** [json.loads], applied to the catalog's [lessons_json] text. The
    decoder itself is the standard library's; the tool only needs the
    list of lesson dicts it yields, or the exception it raises. *)
Variable json_loads : string -> outcome (list Lesson).

(** The part of [execute] inside the [try] block. *)
Definition render_outline (self : t) (resolved_course_title : string)
  : outcome string :=
  results <- course_catalog_get (store self) [resolved_course_title] ;;
  match results with
  | None | Some [] =>
      Return ("No course metadata found for '" +:+ resolved_course_title +:+ "'")
  | Some (metadata :: _) =>
      let course_title := default "Unknown Course" (cat_title metadata) in
      let course_link := cat_course_link metadata in
      let lessons_json := default "[]" (cat_lessons_json metadata) in
      lessons <- json_loads lessons_json ;;
      let outline_parts := [] in
      let outline_parts := outline_parts ++ ["Course: " +:+ course_title] in
      let outline_parts :=
        if truthy_opt course_link
        then outline_parts ++ ["Course Link: " +:+ default "" course_link]
        else outline_parts in
      let outline_parts :=
        match lessons with
        | _ :: _ =>
            fold_left
              (fun parts lesson => parts ++ [lesson_line lesson])
              (sorted lesson_key lessons)
              (outline_parts ++
                 [nl +:+ "Lessons (" +:+ str_int (Z.of_nat (length lessons))
                     +:+ " total):"])
        | [] => outline_parts ++ [nl +:+ "No lessons found for this course."]
        end in
      Return (join nl outline_parts)
  end.

(** [execute(course_name)]. The name resolution happens before the
    [try] block; everything after it is guarded by
    [except Exception]. *)
Definition execute (self : t) (course_name : value) : outcome string :=
  resolved_course_title <- _resolve_course_name (store self) course_name ;;
  if negb (truthy_opt resolved_course_title) then
    Return ("No course found matching '" +:+ str course_name +:+ "'")
  else
    try_except
      (render_outline self (default "" resolved_course_title))
      (fun e => Return ("Error retrieving course outline: " +:+ exn_str e)).

End Execute.

End CourseOutlineTool.

(** ** Tools behind the common [Tool] interface *)

(** A tool definition dict. Only its ["name"] is read by the manager;
    [None] stands for a definition without that key. *)
Record ToolDefinition : Type := {
  def_name : option string;
  def_description : option string;
  def_properties : list (string * string);
  def_required : list string
}.

(** Any other implementation of the interface (the tests register such
    stand-ins): a fixed definition, an [execute] that maps its keyword
    arguments to an outcome, and possibly a [last_sources] attribute. *)
Record OtherTool : Type := {
  other_definition : ToolDefinition;
  other_execute : gmap string value -> outcome string;
  other_last_sources : option (list Source)
}.

Inductive Tool : Type :=
| SearchTool (tool : CourseSearchTool.t)
| OutlineTool (tool : CourseOutlineTool.t)
| AnyTool (tool : OtherTool).

Definition get_tool_definition (tool : Tool) : ToolDefinition :=
  match tool with
  | SearchTool _ =>
      {| def_name := Some "search_course_content";
         def_description :=
           Some "Search course materials with smart course name matching and lesson filtering";
         def_properties :=
           [("query", "string"); ("course_name", "string"); ("lesson_number", "integer")];
         def_required := ["query"] |}
  | OutlineTool _ =>
      {| def_name := Some "get_course_outline";
         def_description :=
           Some "Get complete course outline with lesson structure for a specific course";
         def_properties := [("course_name", "string")];
         def_required := ["course_name"] |}
  | AnyTool tool => other_definition tool
  end.

(** [getattr(tool, "last_sources")] where [hasattr] holds, else [None]. *)
Definition tool_last_sources (tool : Tool) : option (list Source) :=
  match tool with
  | SearchTool tool => Some (CourseSearchTool.last_sources tool)
  | OutlineTool _ => None
  | AnyTool tool => other_last_sources tool
  end.

(** [tool.last_sources = sources], for a tool that has the attribute. *)
Definition tool_set_last_sources (tool : Tool) (sources : list Source) : Tool :=
  match tool with
  | SearchTool tool => SearchTool (CourseSearchTool.set_last_sources tool sources)
  | OutlineTool tool => OutlineTool tool
  | AnyTool tool =>
      AnyTool {| other_definition := other_definition tool;
                 other_execute := other_execute tool;
                 other_last_sources := Some sources |}
  end.

Section Dispatch.

Variable json_loads : string -> outcome (list Lesson).

(** [tool.execute] on keyword arguments: they are bound to the
    parameters of the tool's [execute]; an unknown keyword or a missing
    required one raises [TypeError]. *)
Definition tool_execute (tool : Tool) (kwargs : gmap string value)
  : outcome string * Tool :=
  match tool with
  | SearchTool tool =>
      if bool_decide (dom kwargs ⊆ ({["query"; "course_name"; "lesson_number"]} : gset string))
      then
        match kwargs !! "query" with
        | Some query =>
            let '(r, tool') :=
              CourseSearchTool.execute tool query
                (default PyNone (kwargs !! "course_name"))
                (default PyNone (kwargs !! "lesson_number")) in
            (r, SearchTool tool')
        | None => (Raise TypeError, SearchTool tool)
        end
      else (Raise TypeError, SearchTool tool)
  | OutlineTool tool =>
      if bool_decide (dom kwargs ⊆ ({["course_name"]} : gset string))
      then
        match kwargs !! "course_name" with
        | Some course_name =>
            (CourseOutlineTool.execute json_loads tool course_name, OutlineTool tool)
        | None => (Raise TypeError, OutlineTool tool)
        end
      else (Raise TypeError, OutlineTool tool)
  | AnyTool tool => (other_execute tool kwargs, AnyTool tool)
  end.

End Dispatch.

(** ** ToolManager *)

(** A Python dict keeps its keys in insertion order; assigning to a key
    that is already there replaces the value in place. *)
Fixpoint dict_set {V : Type} (k : string) (v : V) (d : list (string * V))
  : list (string * V) :=
  match d with
  | [] => [(k, v)]
  | (k', v') :: d' =>
      if String.eqb k k' then (k, v) :: d' else (k', v') :: dict_set k v d'
  end.

Fixpoint dict_get {V : Type} (k : string) (d : list (string * V)) : option V :=
  match d with
  | [] => None
  | (k', v') :: d' => if String.eqb k k' then Some v' else dict_get k d'
  end.

Module ToolManager.

(** The registry [self.tools]. Each entry holds the registered tool
    together with its current state. *)
Record t : Type := {
  tools : list (string * Tool)
}.

Definition __init__ : t := {| tools := [] |}.

Definition register_tool (self : t) (tool : Tool) : outcome t :=
  let tool_def := get_tool_definition tool in
  let tool_name := def_name tool_def in
  if negb (truthy_opt tool_name) then
    Raise (ValueError "Tool must have a 'name' in its definition")
  else
    Return {| tools := dict_set (default "" tool_name) tool (tools self) |}.

Definition get_tool_definitions (self : t) : list ToolDefinition :=
  map (fun entry => get_tool_definition (snd entry)) (tools self).

Section Dispatch.

Variable json_loads : string -> outcome (list Lesson).

Definition execute_tool (self : t) (tool_name : string) (kwargs : gmap string value)
  : outcome string * t :=
  match dict_get tool_name (tools self) with
  | None => (Return ("Tool '" +:+ tool_name +:+ "' not found"), self)
  | Some tool =>
      let '(r, tool') := tool_execute json_loads tool kwargs in
      (r, {| tools := dict_set tool_name tool' (tools self) |})
  end.

End Dispatch.

(** The loop of [get_last_sources] over [self.tools.values()]. *)
Fixpoint first_sources (values : list Tool) : list Source :=
  match values with
  | [] => []
  | tool :: rest =>
      match tool_last_sources tool with
      | Some (s :: ss) => s :: ss
      | _ => first_sources rest
      end
  end.

Definition get_last_sources (self : t) : list Source :=
  first_sources (map snd (tools self)).

Definition reset_sources (self : t) : t :=
  {| tools :=
       map (fun entry =>
              match tool_last_sources (snd entry) with
              | Some _ => (fst entry, tool_set_last_sources (snd entry) [])
              | None => entry
              end)
           (tools self) |}.

End ToolManager.

(** ** What the specification says about a hit

    The following definitions follow the wording of the specification, not
    the code: a hit is a document with its metadata; its header is
    [[Course - Lesson N]], with the lesson part only for a hit that has a
    lesson number; its source carries the same text without the brackets
    and the lesson link when there is one. The theorems below compare the
    loop of [_format_results] with them. *)

Definition title_of (m : Meta) : string :=
  default "unknown" (meta_course_title m).

Definition lesson_suffix (m : Meta) : string :=
  match meta_lesson_number m with
  | Some n => " - Lesson " +:+ str_int n
  | None => ""
  end.

Definition header_of (m : Meta) : string :=
  "[" +:+ title_of m +:+ lesson_suffix m +:+ "]".

Definition block_of (hit : string * Meta) : string :=
  header_of (snd hit) +:+ nl +:+ fst hit.

Definition source_of (m : Meta) : Source :=
  {| text := title_of m +:+ lesson_suffix m;
     link := match meta_lesson_link m with
             | Some l => if String.eqb l "" then None else Some l
             | None => None
             end |}.

(** The outline as the specification describes it: a title line, a link
    line when the course has a link, then the lessons in ascending lesson
    number, one per line. *)
Definition outline_lines (m : CatalogMetadata) (lessons : list Lesson) : list string :=
  ["Course: " +:+ default "Unknown Course" (cat_title m)]
  ++ match cat_course_link m with
     | Some l => if String.eqb l "" then [] else ["Course Link: " +:+ l]
     | None => []
     end
  ++ match lessons with
     | [] => [nl +:+ "No lessons found for this course."]
     | _ :: _ =>
         (nl +:+ "Lessons (" +:+ str_int (Z.of_nat (length lessons)) +:+ " total):")
         :: map CourseOutlineTool.lesson_line (sorted CourseOutlineTool.lesson_key lessons)
     end.

(** Ascending order of the sort keys. *)
Definition key_le {A : Type} (key : A -> Z) (a b : A) : Prop := key a <= key b.

(** The line of one lesson as the specification words it,
    [Lesson <number>: <title>], indented by two blanks; a lesson without a
    number shows [N/A], one without a title [Untitled]. *)
Definition outline_lesson_line (lesson : Lesson) : string :=
  "  Lesson "
  +:+ match lesson_number lesson with
      | Some n => str_int n
      | None => "N/A"
      end
  +:+ ": "
  +:+ match lesson_title lesson with
      | Some t => t
      | None => "Untitled"
      end.

(** The outline of a catalog entry whose lessons are given in the order in
    which they are to be printed. *)
Definition outline_as_specified (entry : CatalogMetadata) (ordered : list Lesson)
  : list string :=
  ("Course: " +:+ match cat_title entry with
                  | Some t => t
                  | None => "Unknown Course"
                  end)
  :: match cat_course_link entry with
     | Some l => if String.eqb l "" then [] else ["Course Link: " +:+ l]
     | None => []
     end
  ++ match ordered with
     | [] => [nl +:+ "No lessons found for this course."]
     | _ :: _ =>
         (nl +:+ "Lessons (" +:+ str_int (Z.of_nat (length ordered)) +:+ " total):")
         :: map outline_lesson_line ordered
     end.

(** A registry as [register_tool] builds it: the keys are distinct, and
    every tool is filed under the name of its own definition, which is not
    empty. *)
Definition filed_under_own_name (entry : string * Tool) : Prop :=
  def_name (get_tool_definition (snd entry)) = Some (fst entry) /\ fst entry <> "".

Definition registry_ok (m : ToolManager.t) : Prop :=
  NoDup (map fst (ToolManager.tools m)) /\
  Forall filed_under_own_name (ToolManager.tools m).

(** A tool that holds no sources: it has no [last_sources] attribute or the
    list is empty. *)
Definition holds_no_sources (tool : Tool) : Prop :=
  tool_last_sources tool = None \/ tool_last_sources tool = Some [].

(** A definition has a name when it carries a non-empty ["name"]. *)
Definition has_name (d : ToolDefinition) : Prop :=
  exists n, def_name d = Some n /\ n <> "".

(** ** Claims that the code does not meet, as they are worded

    Each of these is refuted below on a sample object, and the statement
    that does hold is proved next to it. *)

(** Any error string that is not [None] is returned as it is, and the tool
    is left as it was. *)
Definition error_returned_verbatim : Prop :=
  forall self query course_name lesson_number results e,
    search (CourseSearchTool.store self) query course_name lesson_number = Return results ->
    error results = Some e ->
    CourseSearchTool.execute self query course_name lesson_number = (Return e, self).

(** One source per returned document, whatever the length of the metadata
    sequence. *)
Definition one_source_per_document : Prop :=
  forall self query course_name lesson_number results,
    search (CourseSearchTool.store self) query course_name lesson_number = Return results ->
    error results = None ->
    is_empty results = false ->
    length (CourseSearchTool.last_sources
              (snd (CourseSearchTool.execute self query course_name lesson_number)))
    = length (documents results).

(** A search that reports an error or finds nothing leaves no sources of
    an earlier search behind. *)
Definition no_stale_sources : Prop :=
  forall self query course_name lesson_number results,
    search (CourseSearchTool.store self) query course_name lesson_number = Return results ->
    error results <> None \/ is_empty results = true ->
    CourseSearchTool.last_sources
      (snd (CourseSearchTool.execute self query course_name lesson_number)) = [].

(** The sources of every registered tool show up in [get_last_sources]. *)
Definition sources_aggregated : Prop :=
  forall m name tool sources s,
    In (name, tool) (ToolManager.tools m) ->
    tool_last_sources tool = Some sources ->
    In s sources ->
    In s (ToolManager.get_last_sources m).

(** Whatever the store raises, in either tool, reaches the caller. *)
Definition store_exceptions_propagate : Prop :=
  (forall self query course_name lesson_number e,
      search (CourseSearchTool.store self) query course_name lesson_number = Raise e ->
      fst (CourseSearchTool.execute self query course_name lesson_number) = Raise e) /\
  (forall json_loads self course_name e,
      _resolve_course_name (CourseOutlineTool.store self) course_name = Raise e ->
      CourseOutlineTool.execute json_loads self course_name = Raise e) /\
  (forall json_loads self course_name title e,
      _resolve_course_name (CourseOutlineTool.store self) course_name = Return (Some title) ->
      title <> "" ->
      course_catalog_get (CourseOutlineTool.store self) [title] = Raise e ->
      CourseOutlineTool.execute json_loads self course_name = Raise e).

(** A course whose name resolves and that has catalog metadata always gets
    an outline, which starts with a [Course: ] line. *)
Definition outline_for_every_catalog_entry : Prop :=
  forall json_loads self course_name title entry others,
    _resolve_course_name (CourseOutlineTool.store self) course_name = Return (Some title) ->
    title <> "" ->
    course_catalog_get (CourseOutlineTool.store self) [title]
    = Return (Some (entry :: others)) ->
    exists rest,
      CourseOutlineTool.execute json_loads self course_name = Return ("Course: " +:+ rest).

(** ** Sample objects

    Small stores, tools and registries on which the theorems are run. *)

Module Sample.

Definition no_results : SearchResults :=
  {| documents := []; metadata := []; error := None |}.

Definition meta1 : Meta :=
  {| meta_course_title := Some "Test Course";
     meta_lesson_number := Some 1;
     meta_lesson_link := Some "http://test.com/lesson1" |}.

Definition meta2 : Meta :=
  {| meta_course_title := Some "Test Course";
     meta_lesson_number := None;
     meta_lesson_link := None |}.

Definition two_hits : SearchResults :=
  {| documents := ["Test content from lesson 1"; "More test content"];
     metadata := [meta1; meta2];
     error := None |}.

(** Two documents, metadata for the first one only. *)
Definition ragged : SearchResults :=
  {| documents := ["first"; "second"]; metadata := [meta1]; error := None |}.

Definition failed : SearchResults :=
  {| documents := []; metadata := [];
     error := Some "Search failed due to connection error" |}.

(** An error field that is set, to the empty string. *)
Definition blank_error : SearchResults :=
  {| documents := ["first"]; metadata := [meta1]; error := Some "" |}.

Definition boom : exn := Exn "RuntimeError" true "connection lost".

Definition interrupt : exn := Exn "KeyboardInterrupt" false "".

Definition catalog_entry : CatalogMetadata :=
  {| cat_title := Some "Test Course";
     cat_course_link := Some "http://test.com";
     cat_lessons_json := Some "LESSONS" |}.

Definition lessons : list Lesson :=
  [ {| lesson_number := Some 2; lesson_title := Some "Second" |};
    {| lesson_number := Some 0; lesson_title := Some "Intro" |};
    {| lesson_number := Some 1; lesson_title := None |} ].

(** A decoder that knows two texts. *)
Definition json_loads (s : string) : outcome (list Lesson) :=
  if String.eqb s "LESSONS" then Return lessons
  else if String.eqb s "[]" then Return []
  else Raise (Exn "JSONDecodeError" true "Expecting value").

(** A store that answers every search with [r], resolves every course
    name to [resolved] and serves [entries] from its catalog. *)
Definition store_with (r : outcome SearchResults) (resolved : outcome (option string))
    (entries : outcome (option (list CatalogMetadata))) : VectorStore :=
  {| search := fun _ _ _ => r;
     _resolve_course_name := fun _ => resolved;
     course_catalog_get := fun _ => entries |}.

Definition store_of (r : SearchResults) : VectorStore :=
  store_with (Return r) (Return (Some "Test Course")) (Return (Some [catalog_entry])).

Definition old_source : Source :=
  {| text := "Old Course - Lesson 7"; link := None |}.

Definition other_source : Source :=
  {| text := "Other Course"; link := Some "http://other" |}.

(** A search tool that still holds a source from an earlier search. *)
Definition used_tool (r : SearchResults) : CourseSearchTool.t :=
  {| CourseSearchTool.store := store_of r;
     CourseSearchTool.last_sources := [old_source] |}.

Definition stub (name : option string) (sources : option (list Source)) : Tool :=
  AnyTool {| other_definition :=
               {| def_name := name; def_description := Some "Test tool";
                  def_properties := []; def_required := [] |};
             other_execute := fun _ => Return "Tool executed successfully";
             other_last_sources := sources |}.

Definition stub2 (name : option string) : Tool :=
  AnyTool {| other_definition :=
               {| def_name := name; def_description := Some "Replacement";
                  def_properties := []; def_required := [] |};
             other_execute := fun _ => Return "Replacement executed";
             other_last_sources := None |}.

(** A manager with two tools that both hold sources, and an outline
    tool. *)
Definition manager : ToolManager.t :=
  {| ToolManager.tools :=
       [ ("search_course_content", SearchTool (used_tool two_hits));
         ("other", stub (Some "other") (Some [other_source]));
         ("get_course_outline",
          OutlineTool (CourseOutlineTool.__init__ (store_of two_hits))) ] |}.

(** An outline tool whose store resolves the name but whose catalog
    lookup raises. *)
Definition broken_catalog_tool (e : exn) : CourseOutlineTool.t :=
  CourseOutlineTool.__init__
    (store_with (Return no_results) (Return (Some "Test Course")) (Raise e)).

(** An outline tool whose store fails to resolve names, by raising. *)
Definition broken_resolver_tool (e : exn) : CourseOutlineTool.t :=
  CourseOutlineTool.__init__
    (store_with (Return no_results) (Raise e) (Return None)).

(** A search tool whose store raises on every search. *)
Definition broken_search_tool (e : exn) : CourseSearchTool.t :=
  {| CourseSearchTool.store := store_with (Raise e) (Return None) (Return None);
     CourseSearchTool.last_sources := [old_source] |}.

Definition outline_tool : CourseOutlineTool.t :=
  CourseOutlineTool.__init__ (store_of two_hits).

(** An outline tool whose store knows no course. *)
Definition empty_outline_tool : CourseOutlineTool.t :=
  CourseOutlineTool.__init__
    (store_with (Return no_results) (Return None) (Return None)).

(** The text of a lesson list as the ingestion side stores it, and a
    decoder that knows this text and the empty list. *)
Definition quoted (s : string) : string :=
  String (Ascii.ascii_of_nat 34) s +:+ String (Ascii.ascii_of_nat 34) EmptyString.

Definition lessons_text : string :=
  "[{" +:+ quoted "lesson_number" +:+ ": 2, "
       +:+ quoted "lesson_title" +:+ ": " +:+ quoted "Second" +:+ "}, {"
       +:+ quoted "lesson_number" +:+ ": 0, "
       +:+ quoted "lesson_title" +:+ ": " +:+ quoted "Intro" +:+ "}, {"
       +:+ quoted "lesson_number" +:+ ": 1}]".

Definition decode_lessons (s : string) : outcome (list Lesson) :=
  if String.eqb s lessons_text then Return lessons
  else if String.eqb s "[]" then Return []
  else Raise (Exn "JSONDecodeError" true "Expecting value: line 1 column 1 (char 0)").

Definition course_with_lessons : CatalogMetadata :=
  {| cat_title := Some "Test Course";
     cat_course_link := Some "http://test.com";
     cat_lessons_json := Some lessons_text |}.

Definition course_with_broken_lessons : CatalogMetadata :=
  {| cat_title := Some "Test Course";
     cat_course_link := Some "http://test.com";
     cat_lessons_json := Some "not json" |}.

(** An outline tool whose catalog serves [entry] for the resolved title. *)
Definition outline_tool_for (entry : CatalogMetadata) : CourseOutlineTool.t :=
  CourseOutlineTool.__init__
    (store_with (Return no_results) (Return (Some "Test Course")) (Return (Some [entry]))).

End Sample.


(** ** Sequences of manager operations

    What a caller can do with a manager: register a tool, run a tool by
    name, reset the sources. A registration that raises leaves the manager
    as it was. *)

Inductive manager_op : Type :=
| OpRegister (tool : Tool)
| OpExecute (tool_name : string) (kwargs : gmap string value)
| OpReset.

Section Operations.

Variable json_loads : string -> outcome (list Lesson).

Definition apply_op (m : ToolManager.t) (op : manager_op) : ToolManager.t :=
  match op with
  | OpRegister tool =>
      match ToolManager.register_tool m tool with
      | Return m' => m'
      | Raise _ => m
      end
  | OpExecute tool_name kwargs => snd (ToolManager.execute_tool json_loads m tool_name kwargs)
  | OpReset => ToolManager.reset_sources m
  end.

Definition run_ops (ops : list manager_op) : ToolManager.t :=
  fold_left apply_op ops ToolManager.__init__.

End Operations.

(** A source whose link, when there is one, is not the empty string. *)
Definition link_not_blank (s : Source) : Prop := link s <> Some "".

(** ** The test application ([tests/conftest.py], [create_test_app])

    The two API endpoints of the test application, as functions of the
    request and of the RAG system stored on the application state. *)

Module TestApp.

Record QueryRequest : Type := {
  query : string;
  session_id : option string
}.

(** An element of the raw sources that [rag_system.query] returns: a dict,
    of which the ["text"] and ["link"] entries are read ([None] for a
    missing key), or any other value. *)
Inductive raw_source : Type :=
| RawDict (raw_text : option string) (raw_link : option string)
| RawOther (v : value).

Record QueryResponse : Type := {
  answer : string;
  sources : list Source;
  response_session_id : string
}.

(** The analytics dict; a field is [None] when the key is missing. *)
Record Analytics : Type := {
  total_courses : option Z;
  course_titles : option (list string)
}.

Record CourseStats : Type := {
  stats_total_courses : Z;
  stats_course_titles : list string
}.

(** The RAG system as the endpoints use it: [create_session] of its
    session manager, [query] and [get_course_analytics]. *)
Record RagSystem : Type := {
  create_session : outcome string;
  rag_query : string -> string -> outcome (string * list raw_source);
  get_course_analytics : outcome Analytics
}.

(** What an endpoint does: it returns its response model, raises
    [HTTPException(status_code, detail)], or lets an exception through. *)
Inductive response (A : Type) : Type :=
| Respond (a : A)
| HTTPException (status_code : Z) (detail : string)
| Uncaught (e : exn).
Arguments Respond {A} a.
Arguments HTTPException {A} status_code detail.
Arguments Uncaught {A} e.

(** [KeyError(key)]; its [str] is the [repr] of the key. *)
Definition KeyError (key : string) : exn :=
  Exn "KeyError" true ("'" +:+ key +:+ "'").

(** The loop that turns the raw sources into [Source] models. *)
Fixpoint convert_sources (raw_sources : list raw_source) (sources : list Source)
  : outcome (list Source) :=
  match raw_sources with
  | [] => Return sources
  | RawDict raw_text raw_link :: rest =>
      match raw_text with
      | Some t => convert_sources rest (sources ++ [{| text := t; link := raw_link |}])
      | None => Raise (KeyError "text")
      end
  | RawOther v :: rest =>
      convert_sources rest (sources ++ [{| text := str v; link := None |}])
  end.

(** [except Exception as e: raise HTTPException(status_code=500,
    detail=str(e))] around the body of an endpoint. *)
Definition guarded {A : Type} (body : outcome A) : response A :=
  match body with
  | Return a => Respond a
  | Raise e => if exn_is_Exception e then HTTPException 500 (exn_str e) else Uncaught e
  end.

(** [POST /api/query]. *)
Definition query_documents (rag_system : RagSystem) (request : QueryRequest)
  : response QueryResponse :=
  guarded
    (sid <- (if negb (truthy_opt (session_id request))
             then create_session rag_system
             else Return (default "" (session_id request))) ;;
     result <- rag_query rag_system (query request) sid ;;
     let '(answer, raw_sources) := result in
     sources <- convert_sources raw_sources [] ;;
     Return {| answer := answer; sources := sources; response_session_id := sid |}).

(** [GET /api/courses]. *)
Definition get_course_stats (rag_system : RagSystem) : response CourseStats :=
  guarded
    (analytics <- get_course_analytics rag_system ;;
     match total_courses analytics with
     | None => Raise (KeyError "total_courses")
     | Some n =>
         match course_titles analytics with
         | None => Raise (KeyError "course_titles")
         | Some titles =>
             Return {| stats_total_courses := n; stats_course_titles := titles |}
         end
     end).



End TestApp.

(** Sample objects for the test application. *)

Module SampleApp.

Definition raw : list TestApp.raw_source :=
  [ TestApp.RawDict (Some "Test source") (Some "http://test.com");
    TestApp.RawOther (PyStr "plain source");
    TestApp.RawDict (Some "No link") None ].

(** A RAG system whose session manager cannot create sessions. *)
Definition rag : TestApp.RagSystem :=
  {| TestApp.create_session := Raise (Exn "RuntimeError" true "no sessions");
     TestApp.rag_query := fun _ _ => Return ("Test answer", raw);
     TestApp.get_course_analytics :=
       Return {| TestApp.total_courses := Some 2;
                 TestApp.course_titles := Some ["Test Course 1"; "Test Course 2"] |} |}.

(** A RAG system whose query fails. *)
Definition failing_rag : TestApp.RagSystem :=
  {| TestApp.create_session := Return "test-session-123";
     TestApp.rag_query := fun _ _ => Raise (Exn "Exception" true "API key not found");
     TestApp.get_course_analytics := Raise (Exn "Exception" true "Analytics error") |}.

Definition request : TestApp.QueryRequest :=
  {| TestApp.query := "What is machine learning?";
     TestApp.session_id := Some "test-session-123" |}.

(** A search tool that has not searched yet, on a store with two hits. *)
Definition fresh_search_tool : CourseSearchTool.t :=
  CourseSearchTool.__init__ (Sample.store_of Sample.two_hits).

(** The manager as the application sets it up: the search tool, then the
    outline tool. *)
Definition app_manager : ToolManager.t :=
  {| ToolManager.tools :=
       [ ("search_course_content", SearchTool fresh_search_tool);
         ("get_course_outline", OutlineTool Sample.outline_tool) ] |}.

(** Results with documents but without any metadata. *)
Definition no_metadata : SearchResults :=
  {| documents := ["first"; "second"]; metadata := []; error := None |}.

(** Two lessons that share a lesson number, and one without a number. *)
Definition tied_lessons : list Lesson :=
  [ {| lesson_number := Some 1; lesson_title := Some "B" |};
    {| lesson_number := None; lesson_title := Some "Unnumbered" |};
    {| lesson_number := Some 1; lesson_title := Some "A" |} ].

End SampleApp.

(** ** Auxiliary facts *)

Lemma append_assoc (a b c : string) : (a +:+ b) +:+ c = a +:+ (b +:+ c).
Proof.
  induction a as [|ch a IH].
  - reflexivity.
  - change (String ch ((a +:+ b) +:+ c) = String ch (a +:+ (b +:+ c))).
    f_equal. exact IH.
Qed.

Lemma append_empty_l (a : string) : "" +:+ a = a.
Proof. reflexivity. Qed.

Lemma append_empty_r (a : string) : a +:+ "" = a.
Proof.
  induction a as [|ch a IH].
  - reflexivity.
  - change (String ch (a +:+ "") = String ch a). f_equal. exact IH.
Qed.

Ltac norm_append :=
  repeat first [rewrite append_assoc | rewrite append_empty_l | rewrite append_empty_r].

Lemma eqb_empty_false (s : string) : s <> "" -> String.eqb s "" = false.
Proof. intros H. now apply String.eqb_neq. Qed.

Lemma truthy_opt_Some (o : option string) :
  truthy_opt o = true -> exists s, o = Some s /\ s <> "".
Proof.
  destruct o as [s|]; simpl; [|discriminate].
  intros H. exists s. split; [reflexivity|].
  intros ->. discriminate.
Qed.

Lemma truthy_opt_nonempty (s : string) : s <> "" -> truthy_opt (Some s) = true.
Proof. intros H. simpl. now rewrite eqb_empty_false. Qed.

(** One round of the loop adds the block and the source of the hit. *)
Lemma format_step_spec formatted sources hit :
  CourseSearchTool.format_step (formatted, sources) hit
  = (formatted ++ [block_of hit], sources ++ [source_of (snd hit)]).
Proof.
  destruct hit as [doc m]. unfold CourseSearchTool.format_step.
  unfold block_of, header_of, source_of, lesson_suffix, title_of, truthy_opt. simpl.
  destruct (meta_lesson_number m) as [n|], (meta_lesson_link m) as [l|]; simpl;
    norm_append; try (destruct (String.eqb l "")); reflexivity.
Qed.

(** The loop maps [block_of] and [source_of] over the hits, in order. *)
Lemma format_loop_spec hits formatted sources :
  fold_left CourseSearchTool.format_step hits (formatted, sources)
  = (formatted ++ map block_of hits, sources ++ map (fun hit => source_of (snd hit)) hits).
Proof.
  revert formatted sources.
  induction hits as [|hit hits IH]; intros formatted sources; cbn [fold_left map].
  - now rewrite !app_nil_r.
  - rewrite format_step_spec, IH, <- !app_assoc. reflexivity.
Qed.

Lemma format_results_spec self results :
  CourseSearchTool._format_results self results
  = (join (nl +:+ nl) (map block_of (zip (documents results) (metadata results))),
     CourseSearchTool.set_last_sources self
       (map (fun hit => source_of (snd hit)) (zip (documents results) (metadata results)))).
Proof.
  unfold CourseSearchTool._format_results. now rewrite format_loop_spec.
Qed.

(** The message for an empty result names every filter that is truthy. *)
Lemma no_content_message self query course_name lesson_number results :
  search (CourseSearchTool.store self) query course_name lesson_number = Return results ->
  truthy_opt (error results) = false ->
  is_empty results = true ->
  truthy course_name = true ->
  truthy lesson_number = true ->
  CourseSearchTool.execute self query course_name lesson_number
  = (Return ("No relevant content found in course '" +:+ str course_name
             +:+ "' in lesson " +:+ str lesson_number +:+ "."), self).
Proof.
  intros Hs He Hd Hc Hl. unfold CourseSearchTool.execute.
  rewrite Hs, He, Hd, Hc, Hl. now norm_append.
Qed.

Lemma map_snd_zip {A B C : Type} (f : B -> C) (l : list A) (k : list B) :
  map (fun hit => f (snd hit)) (zip l k) = map f (take (length l) k).
Proof.
  revert k. induction l as [|x l IH]; intros [|y k]; simpl; try reflexivity.
  now rewrite IH.
Qed.

(** What [execute] does once the search has returned. *)
Lemma execute_returned self query course_name lesson_number results :
  search (CourseSearchTool.store self) query course_name lesson_number = Return results ->
  CourseSearchTool.execute self query course_name lesson_number
  = if truthy_opt (error results) then (Return (default "" (error results)), self)
    else if is_empty results then
      (Return ("No relevant content found"
               +:+ ((if truthy course_name
                     then " in course '" +:+ str course_name +:+ "'" else "")
                    +:+ (if truthy lesson_number
                         then " in lesson " +:+ str lesson_number else ""))
               +:+ "."), self)
    else
      (Return (join (nl +:+ nl) (map block_of (zip (documents results) (metadata results)))),
       CourseSearchTool.set_last_sources self
         (map source_of (take (length (documents results)) (metadata results)))).
Proof.
  intros Hs. unfold CourseSearchTool.execute. rewrite Hs.
  destruct (truthy_opt (error results)); [reflexivity|].
  destruct (is_empty results).
  - destruct (truthy course_name), (truthy lesson_number); simpl;
      norm_append; reflexivity.
  - rewrite format_results_spec, map_snd_zip. reflexivity.
Qed.

(** *** The stable sort *)

Section Sorted.

Context {A : Type} (key : A -> Z).

Lemma insert_by_perm x l : Permutation (insert_by key x l) (x :: l).
Proof.
  induction l as [|y l IH]; cbn [insert_by].
  - reflexivity.
  - destruct (key x <=? key y); [reflexivity|].
    rewrite IH. apply perm_swap.
Qed.

Lemma sorted_perm l : Permutation (sorted key l) l.
Proof.
  induction l as [|x l IH]; cbn [sorted foldr].
  - reflexivity.
  - fold (sorted key l). rewrite insert_by_perm. now constructor.
Qed.

Lemma insert_by_sorted x l :
  StronglySorted (key_le key) l -> StronglySorted (key_le key) (insert_by key x l).
Proof.
  induction 1 as [|y l Hl IH Hy]; cbn [insert_by].
  - repeat constructor.
  - destruct (Z.leb_spec (key x) (key y)) as [Hle|Hgt].
    + constructor; [now constructor|].
      constructor; [exact Hle|].
      eapply Forall_impl; [exact Hy|].
      unfold key_le. intros z Hz. lia.
    + constructor; [exact IH|].
      rewrite insert_by_perm. constructor; [unfold key_le; lia|exact Hy].
Qed.

Lemma sorted_ascending l : StronglySorted (key_le key) (sorted key l).
Proof.
  induction l as [|x l IH]; cbn [sorted foldr].
  - constructor.
  - now apply insert_by_sorted.
Qed.

(** Stability: among the elements of one key, the input order is kept. *)
Lemma insert_by_stable k x l :
  StronglySorted (key_le key) l ->
  filter (fun y => key y = k) (insert_by key x l)
  = filter (fun y => key y = k) (x :: l).
Proof.
  induction 1 as [|y l Hl IH Hy]; cbn [insert_by].
  - reflexivity.
  - destruct (Z.leb_spec (key x) (key y)) as [Hle|Hgt]; [reflexivity|].
    rewrite (filter_cons _ y), IH, !(filter_cons _ x), (filter_cons _ y).
    destruct (decide (key x = k)), (decide (key y = k)); try reflexivity.
    lia.
Qed.

Lemma sorted_stable k l :
  filter (fun y => key y = k) (sorted key l) = filter (fun y => key y = k) l.
Proof.
  induction l as [|x l IH]; cbn [sorted foldr].
  - reflexivity.
  - fold (sorted key l).
    rewrite insert_by_stable by apply sorted_ascending.
    rewrite !(filter_cons _ x), IH. reflexivity.
Qed.

End Sorted.

(** *** The outline *)

Lemma fold_left_snoc {A B : Type} (f : B -> A) (l : list B) (acc : list A) :
  fold_left (fun parts x => parts ++ [f x]) l acc = acc ++ map f l.
Proof.
  revert acc. induction l as [|x l IH]; intros acc; cbn [fold_left map].
  - now rewrite app_nil_r.
  - rewrite IH, <- app_assoc. reflexivity.
Qed.

(** The lines that [render_outline] collects are the lines of the
    specification. *)
Lemma render_outline_spec json_loads self title entry others lessons :
  course_catalog_get (CourseOutlineTool.store self) [title] = Return (Some (entry :: others)) ->
  json_loads (default "[]" (cat_lessons_json entry)) = Return lessons ->
  CourseOutlineTool.render_outline json_loads self title
  = Return (join nl (outline_lines entry lessons)).
Proof.
  intros Hget Hjson. unfold CourseOutlineTool.render_outline.
  rewrite Hget. cbn [bind]. rewrite Hjson. cbn [bind].
  unfold outline_lines, truthy_opt.
  destruct (cat_course_link entry) as [l|]; cbn [default negb app].
  - destruct (String.eqb l ""); cbn [negb app];
      destruct lessons; cbn [app]; try rewrite fold_left_snoc; reflexivity.
  - destruct lessons; cbn [app]; try rewrite fold_left_snoc; reflexivity.
Qed.

Lemma execute_resolved json_loads self course_name title :
  _resolve_course_name (CourseOutlineTool.store self) course_name = Return (Some title) ->
  title <> "" ->
  CourseOutlineTool.execute json_loads self course_name
  = try_except
      (CourseOutlineTool.render_outline json_loads self title)
      (fun e => Return ("Error retrieving course outline: " +:+ exn_str e)).
Proof.
  intros Hr Hne. unfold CourseOutlineTool.execute. rewrite Hr. cbn [bind].
  rewrite (truthy_opt_nonempty _ Hne). reflexivity.
Qed.

(** *** The registry dict *)

Section Dict.

Context {V : Type}.
Implicit Types (d : list (string * V)) (k : string) (v : V).

Lemma dict_get_None k d : dict_get k d = None <-> ~ In k (map fst d).
Proof.
  induction d as [|[k' v'] d IH]; cbn [dict_get map fst In].
  - tauto.
  - destruct (String.eqb_spec k k') as [->|Hne].
    + split; [discriminate|tauto].
    + rewrite IH. split; [intros H [Heq|Hin]; [congruence|tauto]|tauto].
Qed.

Lemma dict_get_In k v d : NoDup (map fst d) -> In (k, v) d -> dict_get k d = Some v.
Proof.
  induction d as [|[k' v'] d IH]; cbn [dict_get map fst In]; [tauto|].
  intros Hnd [Heq|Hin].
  - injection Heq as -> ->. now rewrite String.eqb_refl.
  - apply NoDup_cons in Hnd as [Hk' Hnd].
    destruct (String.eqb_spec k k') as [->|Hne].
    + exfalso. apply Hk'. apply list_elem_of_In.
      change k' with (fst (k', v)). now apply in_map.
    + now apply IH.
Qed.

Lemma dict_get_Some_In k v d : dict_get k d = Some v -> In (k, v) d.
Proof.
  induction d as [|[k' v'] d IH]; cbn [dict_get In]; [discriminate|].
  destruct (String.eqb_spec k k') as [->|Hne].
  - intros [= ->]. now left.
  - intros H. right. now apply IH.
Qed.

Lemma dict_get_set_eq k v d : dict_get k (dict_set k v d) = Some v.
Proof.
  induction d as [|[k' v'] d IH]; cbn [dict_set dict_get].
  - now rewrite String.eqb_refl.
  - destruct (String.eqb_spec k k') as [->|Hne]; cbn [dict_get].
    + now rewrite String.eqb_refl.
    + destruct (String.eqb_spec k k'); [contradiction|exact IH].
Qed.

Lemma dict_get_set_ne k k' v d : k <> k' -> dict_get k' (dict_set k v d) = dict_get k' d.
Proof.
  intros Hne. induction d as [|[k0 v0] d IH]; cbn [dict_set dict_get].
  - destruct (String.eqb_spec k' k); [congruence|reflexivity].
  - destruct (String.eqb_spec k k0) as [->|Hne0]; cbn [dict_get].
    + destruct (String.eqb_spec k' k0); [congruence|reflexivity].
    + now rewrite IH.
Qed.

(** Assigning to a key that is present keeps the keys and their order;
    a new key goes to the end. *)
Lemma dict_set_keys k v d :
  map fst (dict_set k v d)
  = match dict_get k d with
    | Some _ => map fst d
    | None => map fst d ++ [k]
    end.
Proof.
  induction d as [|[k' v'] d IH]; cbn [dict_set dict_get map fst app].
  - reflexivity.
  - destruct (String.eqb_spec k k') as [->|Hne]; cbn [map fst].
    + reflexivity.
    + rewrite IH. now destruct (dict_get k d).
Qed.

Lemma dict_set_NoDup k v d : NoDup (map fst d) -> NoDup (map fst (dict_set k v d)).
Proof.
  intros Hnd. rewrite dict_set_keys.
  destruct (dict_get k d) eqn:Hg; [exact Hnd|].
  apply dict_get_None in Hg.
  apply NoDup_app. split; [exact Hnd|]. split.
  - intros x Hx ->%list_elem_of_singleton. apply Hg. now apply list_elem_of_In.
  - apply NoDup_singleton.
Qed.

Lemma dict_set_Forall (P : string * V -> Prop) k v d :
  P (k, v) -> Forall P d -> Forall P (dict_set k v d).
Proof.
  intros Hkv. induction 1 as [|[k' v'] d Hhd Htl IH]; cbn [dict_set].
  - now repeat constructor.
  - destruct (String.eqb k k'); now constructor.
Qed.

Lemma dict_set_length k v d :
  length (dict_set k v d)
  = match dict_get k d with
    | Some _ => length d
    | None => S (length d)
    end.
Proof.
  induction d as [|[k' v'] d IH]; cbn [dict_set dict_get length].
  - reflexivity.
  - destruct (String.eqb k k'); cbn [length]; [reflexivity|].
    rewrite IH. now destruct (dict_get k d).
Qed.

End Dict.

(** *** The registry invariant *)

Lemma registry_ok_init : registry_ok ToolManager.__init__.
Proof. split; cbn; constructor. Qed.

Lemma register_tool_named m tool n :
  def_name (get_tool_definition tool) = Some n ->
  n <> "" ->
  ToolManager.register_tool m tool
  = Return {| ToolManager.tools := dict_set n tool (ToolManager.tools m) |}.
Proof.
  intros Hn Hne. unfold ToolManager.register_tool.
  rewrite Hn, (truthy_opt_nonempty _ Hne). reflexivity.
Qed.

Lemma register_tool_ok m tool m' :
  registry_ok m -> ToolManager.register_tool m tool = Return m' -> registry_ok m'.
Proof.
  intros [Hnd Hall]. unfold ToolManager.register_tool.
  destruct (truthy_opt (def_name (get_tool_definition tool))) eqn:Ht; cbn [negb];
    [|discriminate].
  apply truthy_opt_Some in Ht as (n & Hn & Hne). rewrite Hn. cbn [default].
  intros [= <-]. split; cbn [ToolManager.tools].
  - now apply dict_set_NoDup.
  - apply dict_set_Forall; [|exact Hall]. now split.
Qed.

Lemma registered_name_nonempty m n tool :
  registry_ok m -> dict_get n (ToolManager.tools m) = Some tool -> n <> "".
Proof.
  intros [_ Hall] Hget%dict_get_Some_In.
  rewrite Forall_forall in Hall. apply list_elem_of_In in Hget.
  now destruct (Hall _ Hget) as [_ Hne].
Qed.

(** Running a tool does not change its definition. *)
Lemma tool_execute_definition json_loads tool kwargs :
  get_tool_definition (snd (tool_execute json_loads tool kwargs))
  = get_tool_definition tool.
Proof.
  destruct tool as [tool|tool|tool]; cbn [tool_execute].
  - destruct (bool_decide _); [|reflexivity].
    destruct (kwargs !! "query"); [|reflexivity].
    now destruct (CourseSearchTool.execute _ _ _ _).
  - destruct (bool_decide _); [|reflexivity].
    now destruct (kwargs !! "course_name").
  - reflexivity.
Qed.

Lemma execute_tool_ok json_loads m tool_name kwargs :
  registry_ok m ->
  registry_ok (snd (ToolManager.execute_tool json_loads m tool_name kwargs)).
Proof.
  intros Hok. unfold ToolManager.execute_tool.
  destruct (dict_get tool_name (ToolManager.tools m)) as [tool|] eqn:Hg; [|exact Hok].
  pose proof (tool_execute_definition json_loads tool kwargs) as Hdef.
  destruct (tool_execute json_loads tool kwargs) as [r tool']. cbn [snd] in *.
  pose proof (registered_name_nonempty _ _ _ Hok Hg) as Hne.
  destruct Hok as [Hnd Hall]. split; cbn [ToolManager.tools].
  - now apply dict_set_NoDup.
  - apply dict_set_Forall; [|exact Hall].
    split; [|exact Hne]. cbn [fst snd]. rewrite Hdef.
    apply dict_get_Some_In, list_elem_of_In in Hg.
    rewrite Forall_forall in Hall. now destruct (Hall _ Hg).
Qed.

Lemma reset_sources_ok m : registry_ok m -> registry_ok (ToolManager.reset_sources m).
Proof.
  intros [Hnd Hall]. unfold ToolManager.reset_sources. split; cbn [ToolManager.tools].
  - rewrite map_map.
    erewrite map_ext; [exact Hnd|].
    intros [k v]. cbn [fst snd]. now destruct (tool_last_sources v).
  - apply Forall_fmap. eapply Forall_impl; [exact Hall|].
    intros [k v] [Hdef Hne]. unfold filed_under_own_name, compose in *.
    cbn [fst snd] in *.
    destruct (tool_last_sources v) eqn:Hs; cbn [fst snd]; split; try assumption.
    destruct v as [v|v|v]; cbn in *; congruence.
Qed.

(** A definition name is filed under its own key only. *)
Lemma no_definition_elsewhere n (d : list (string * Tool)) :
  ~ In n (map fst d) ->
  Forall filed_under_own_name d ->
  filter (fun x => def_name x = Some n)
         (map (fun entry => get_tool_definition (snd entry)) d) = [].
Proof.
  intros Hn. induction 1 as [|[k v] d [Hhd _] Htl IH]; cbn [map].
  - reflexivity.
  - cbn [map fst In] in Hn. cbn [fst snd] in Hhd.
    rewrite filter_cons_False by (cbn [snd]; rewrite Hhd; intros [= ->]; tauto).
    apply IH. tauto.
Qed.

Lemma one_definition n tool (d : list (string * Tool)) :
  NoDup (map fst d) ->
  Forall filed_under_own_name d ->
  dict_get n d = Some tool ->
  filter (fun x => def_name x = Some n)
         (map (fun entry => get_tool_definition (snd entry)) d)
  = [get_tool_definition tool].
Proof.
  intros Hnd Hall. revert Hnd.
  induction Hall as [|[k v] d [Hhd _] Htl IH]; cbn [map fst dict_get]; [discriminate|].
  intros [Hk Hnd]%NoDup_cons. cbn [fst snd] in Hhd.
  destruct (String.eqb_spec n k) as [->|Hne].
  - intros [= ->].
    rewrite filter_cons_True by (cbn [snd]; exact Hhd).
    rewrite no_definition_elsewhere; [reflexivity| |exact Htl].
    intros Hin. apply Hk. now apply list_elem_of_In.
  - intros Hg.
    rewrite filter_cons_False by (cbn [snd]; rewrite Hhd; congruence).
    now apply IH.
Qed.

(** *** Telling the lines of an outline apart *)

Lemma link_line_not_title l title : "Course Link: " +:+ l <> "Course: " +:+ title.
Proof. intros H. vm_compute in H. discriminate H. Qed.

Lemma link_line_not_lesson l lesson :
  "Course Link: " +:+ l <> CourseOutlineTool.lesson_line lesson.
Proof.
  unfold CourseOutlineTool.lesson_line. intros H.
  change ("Course Link: " +:+ l)
    with (String "C"%char ("ourse Link: " +:+ l)) in H.
  match type of H with
  | _ = "  Lesson " +:+ ?rest =>
      change ("  Lesson " +:+ rest) with (String " "%char (" Lesson " +:+ rest)) in H
  end.
  discriminate H.
Qed.

Lemma link_line_not_heading l rest : "Course Link: " +:+ l <> nl +:+ rest.
Proof.
  intros H.
  change ("Course Link: " +:+ l) with (String "C"%char ("ourse Link: " +:+ l)) in H.
  change (nl +:+ rest) with (String (Ascii.ascii_of_nat 10) rest) in H.
  discriminate H.
Qed.

Lemma link_line_in_outline entry lessons l :
  In ("Course Link: " +:+ l) (outline_lines entry lessons)
  <-> cat_course_link entry = Some l /\ l <> "".
Proof.
  unfold outline_lines. split.
  - intros [Htitle|Hin]%in_app_or.
    { destruct Htitle as [Htitle|[]]. symmetry in Htitle.
      now apply link_line_not_title in Htitle. }
    apply in_app_or in Hin as [Hlink|Hlessons].
    + destruct (cat_course_link entry) as [l0|]; [|destruct Hlink].
      destruct (String.eqb_spec l0 "") as [Hl0|Hne]; [destruct Hlink|].
      destruct Hlink as [Heq|[]].
      apply String.app_inj in Heq. subst l0. now split.
    + destruct lessons as [|lesson lessons]; cbn [In] in Hlessons.
      * destruct Hlessons as [Heq|[]]. symmetry in Heq.
        now apply link_line_not_heading in Heq.
      * destruct Hlessons as [Heq|Hin].
        { symmetry in Heq. now apply link_line_not_heading in Heq. }
        apply in_map_iff in Hin as (x & Heq & _). symmetry in Heq.
        now apply link_line_not_lesson in Heq.
  - intros [-> Hne]. apply in_or_app. right. apply in_or_app. left.
    rewrite (eqb_empty_false _ Hne). now left.
Qed.

(** *** The outline in the words of the specification *)

Lemma insert_by_not_nil {A : Type} (key : A -> Z) x l : insert_by key x l <> [].
Proof.
  destruct l as [|y l]; cbn [insert_by]; [|destruct (key x <=? key y)]; discriminate.
Qed.

Lemma outline_lines_as_specified entry lessons :
  outline_lines entry lessons
  = outline_as_specified entry (sorted CourseOutlineTool.lesson_key lessons).
Proof.
  assert (Hlines : map CourseOutlineTool.lesson_line (sorted CourseOutlineTool.lesson_key lessons)
                   = map outline_lesson_line (sorted CourseOutlineTool.lesson_key lessons)).
  { apply map_ext. intros x. unfold CourseOutlineTool.lesson_line, outline_lesson_line.
    now destruct (lesson_title x). }
  pose proof (Permutation_length (sorted_perm CourseOutlineTool.lesson_key lessons)) as Hlen.
  unfold outline_lines, outline_as_specified. cbn [app].
  rewrite Hlines, Hlen.
  destruct lessons as [|lesson lessons].
  - now destruct (cat_title entry).
  - destruct (sorted CourseOutlineTool.lesson_key (lesson :: lessons))
      as [|first ordered] eqn:Hsorted.
    + cbn [sorted foldr] in Hsorted. now apply insert_by_not_nil in Hsorted.
    + now destruct (cat_title entry).
Qed.

Lemma outline_starts_with_title entry ordered :
  exists rest,
    join nl (outline_as_specified entry ordered)
    = "Course: " +:+ match cat_title entry with
                     | Some t => t
                     | None => "Unknown Course"
                     end +:+ nl +:+ rest.
Proof.
  unfold outline_as_specified.
  destruct (cat_course_link entry) as [l|]; [destruct (String.eqb l "")|];
    destruct ordered; cbn [app join String.concat]; eexists; reflexivity.
Qed.

(** ** CourseSearchTool.execute *)

(** C1, as worded, fails: an error field holding the empty string is not
    [None], yet [execute] goes on to format the documents and to record
    their sources. *)
Lemma C1_blank_error_is_formatted : ~ error_returned_verbatim.
Proof.
  intros H.
  specialize (H (Sample.used_tool Sample.blank_error) (PyStr "q") PyNone PyNone
                Sample.blank_error "" eq_refl eq_refl).
  vm_compute in H. discriminate H.
Qed.

(** C1, amended: for every search whose results carry a non-empty error
    string, [execute] returns exactly that string and leaves the tool,
    hence its recorded sources, untouched: no document is formatted. *)
Theorem C1_error_returned_verbatim self query course_name lesson_number results e :
  search (CourseSearchTool.store self) query course_name lesson_number = Return results ->
  error results = Some e ->
  e <> "" ->
  CourseSearchTool.execute self query course_name lesson_number = (Return e, self).
Proof.
  intros Hs He Hne.
  rewrite (execute_returned _ _ _ _ _ Hs), He, (truthy_opt_nonempty _ Hne).
  reflexivity.
Qed.

(** C1 on a store whose search fails with an error text. *)
Lemma C1_error_returned_verbatim_witness :
  CourseSearchTool.execute (Sample.used_tool Sample.failed) (PyStr "q") PyNone PyNone
  = (Return "Search failed due to connection error", Sample.used_tool Sample.failed).
Proof.
  apply (C1_error_returned_verbatim _ _ _ _ Sample.failed).
  - reflexivity.
  - reflexivity.
  - discriminate.
Defined.

(** C2, as worded, fails: with two documents and one metadata entry the
    loop runs once and one source is recorded. *)
Lemma C2_ragged_results_lose_sources : ~ one_source_per_document.
Proof.
  intros H.
  specialize (H (Sample.used_tool Sample.ragged) (PyStr "q") PyNone PyNone
                Sample.ragged eq_refl eq_refl eq_refl).
  vm_compute in H. discriminate H.
Qed.

(** C2, amended: for every non-empty, error-free search result, the
    recorded sources are those of the metadata entries that have a
    document, in order: as many as the shorter of the two sequences, the
    i-th one derived from the i-th metadata entry, and one per document
    whenever there is metadata for every document. *)
Theorem C2_sources_follow_metadata self query course_name lesson_number results :
  search (CourseSearchTool.store self) query course_name lesson_number = Return results ->
  error results = None ->
  is_empty results = false ->
  let sources :=
    CourseSearchTool.last_sources
      (snd (CourseSearchTool.execute self query course_name lesson_number)) in
  sources = map source_of (take (length (documents results)) (metadata results)) /\
  length sources = Nat.min (length (documents results)) (length (metadata results)) /\
  (length (documents results) <= length (metadata results) ->
   length sources = length (documents results))%nat /\
  (forall i s, sources !! i = Some s ->
     exists m, metadata results !! i = Some m /\ s = source_of m /\
               is_Some (documents results !! i)).
Proof.
  intros Hs He Hne sources. subst sources.
  rewrite (execute_returned _ _ _ _ _ Hs), He, Hne. cbn [truthy_opt snd].
  cbn [CourseSearchTool.set_last_sources CourseSearchTool.last_sources].
  split; [reflexivity|].
  split; [rewrite length_map, length_take; lia|].
  split; [intros Hle; rewrite length_map, length_take; lia|].
  intros i s Hi.
  rewrite list_lookup_fmap in Hi.
  destruct (take (length (documents results)) (metadata results) !! i) as [m|] eqn:Hm;
    [|discriminate].
  injection Hi as <-.
  apply lookup_take_Some in Hm as [Hm Hlt].
  exists m. repeat split; [exact Hm|].
  now apply lookup_lt_is_Some.
Qed.

(** C2 on a search with two hits. *)
Lemma C2_sources_follow_metadata_witness :
  let sources :=
    CourseSearchTool.last_sources
      (snd (CourseSearchTool.execute (Sample.used_tool Sample.two_hits)
              (PyStr "q") PyNone PyNone)) in
  sources = map source_of (take 2 (metadata Sample.two_hits)) /\
  length sources = Nat.min 2 2 /\
  (2 <= 2 -> length sources = 2)%nat /\
  (forall i s, sources !! i = Some s ->
     exists m, metadata Sample.two_hits !! i = Some m /\ s = source_of m /\
               is_Some (documents Sample.two_hits !! i)).
Proof.
  apply (C2_sources_follow_metadata (Sample.used_tool Sample.two_hits)
           (PyStr "q") PyNone PyNone Sample.two_hits).
  - reflexivity.
  - reflexivity.
  - reflexivity.
Defined.

(** C3: for every non-empty, error-free search result, the returned string
    is the blocks of the hits joined by a blank line; a block is the
    header, a line feed and the document text; the header is the course
    title in brackets, followed inside the brackets by [" - Lesson N"]
    exactly when the metadata has a lesson number. *)
Theorem C3_blocks_joined_by_blank_lines self query course_name lesson_number results :
  search (CourseSearchTool.store self) query course_name lesson_number = Return results ->
  error results = None ->
  is_empty results = false ->
  fst (CourseSearchTool.execute self query course_name lesson_number)
  = Return (join (nl +:+ nl)
              (map (fun hit => header_of (snd hit) +:+ nl +:+ fst hit)
                   (zip (documents results) (metadata results)))) /\
  (forall m n, meta_lesson_number m = Some n ->
     header_of m = "[" +:+ title_of m +:+ " - Lesson " +:+ str_int n +:+ "]") /\
  (forall m, meta_lesson_number m = None -> header_of m = "[" +:+ title_of m +:+ "]") /\
  (forall m title, meta_course_title m = Some title -> title_of m = title).
Proof.
  intros Hs He Hne.
  rewrite (execute_returned _ _ _ _ _ Hs), He, Hne. cbn [truthy_opt fst].
  split; [reflexivity|].
  unfold header_of, lesson_suffix, title_of.
  split; [|split].
  - intros m n ->. now norm_append.
  - intros m ->. now norm_append.
  - intros m title ->. reflexivity.
Qed.

(** C3 on a search with two hits, the second one without a lesson number. *)
Lemma C3_blocks_joined_by_blank_lines_witness :
  fst (CourseSearchTool.execute (Sample.used_tool Sample.two_hits) (PyStr "q") PyNone PyNone)
  = Return ("[Test Course - Lesson 1]" +:+ nl +:+ "Test content from lesson 1"
            +:+ nl +:+ nl +:+ "[Test Course]" +:+ nl +:+ "More test content").
Proof.
  destruct (C3_blocks_joined_by_blank_lines (Sample.used_tool Sample.two_hits)
              (PyStr "q") PyNone PyNone Sample.two_hits eq_refl eq_refl eq_refl)
    as [H _].
  rewrite H. vm_compute. reflexivity.
Defined.

(** C4 at lesson 0: an error-free search without documents, called with
    the filter [lesson_number = 0], answers with a message that names the
    course filter, if one was given, and nothing else; the lesson filter
    that was supplied is not named. *)
Theorem C4_lesson_zero_not_named self query course_name results :
  search (CourseSearchTool.store self) query course_name (PyInt 0) = Return results ->
  error results = None ->
  documents results = [] ->
  CourseSearchTool.execute self query course_name (PyInt 0)
  = (Return ("No relevant content found"
             +:+ (if truthy course_name
                  then " in course '" +:+ str course_name +:+ "'" else "")
             +:+ "."), self).
Proof.
  intros Hs He Hd.
  rewrite (execute_returned _ _ _ _ _ Hs), He. unfold is_empty. rewrite Hd.
  cbn [truthy_opt truthy Z.eqb negb]. now norm_append.
Qed.

(** C4 at lesson 0, on a store that finds nothing. *)
Lemma C4_lesson_zero_not_named_witness :
  CourseSearchTool.execute (Sample.used_tool Sample.no_results) (PyStr "q") PyNone (PyInt 0)
  = (Return "No relevant content found.", Sample.used_tool Sample.no_results).
Proof.
  apply (C4_lesson_zero_not_named _ _ PyNone Sample.no_results).
  - reflexivity.
  - reflexivity.
  - reflexivity.
Defined.

(** C5, as worded, fails: a search that reports an error returns before
    [last_sources] is assigned, so the sources of the earlier search are
    still there afterwards. *)
Lemma C5_error_keeps_old_sources : ~ no_stale_sources.
Proof.
  intros H.
  assert (Herr : error Sample.failed <> None) by discriminate.
  specialize (H (Sample.used_tool Sample.failed) (PyStr "q") PyNone PyNone
                Sample.failed eq_refl (or_introl Herr)).
  vm_compute in H. discriminate H.
Qed.

(** C5, amended: [execute] overwrites [last_sources] exactly on the calls
    that reach the formatting step, with the sources of that search and
    whatever was stored before; a call whose search raises, reports an
    error or returns no documents leaves [last_sources] as it was. And
    [reset_sources] keeps the registry's names and tool definitions, gives
    every tool that has a [last_sources] attribute the empty list, and
    leaves the other tools alone. *)
Theorem C5_sources_overwritten_or_kept self query course_name lesson_number m :
  CourseSearchTool.last_sources
    (snd (CourseSearchTool.execute self query course_name lesson_number))
  = match search (CourseSearchTool.store self) query course_name lesson_number with
    | Return results =>
        if truthy_opt (error results) || is_empty results
        then CourseSearchTool.last_sources self
        else map source_of (take (length (documents results)) (metadata results))
    | Raise _ => CourseSearchTool.last_sources self
    end
  /\
  Forall2
    (fun before after =>
       fst after = fst before /\
       get_tool_definition (snd after) = get_tool_definition (snd before) /\
       match tool_last_sources (snd before) with
       | Some _ => tool_last_sources (snd after) = Some []
       | None => snd after = snd before
       end)
    (ToolManager.tools m) (ToolManager.tools (ToolManager.reset_sources m)).
Proof.
  split.
  - destruct (search (CourseSearchTool.store self) query course_name lesson_number)
      as [results|e] eqn:Hs.
    + rewrite (execute_returned _ _ _ _ _ Hs).
      destruct (truthy_opt (error results)); [reflexivity|].
      destruct (is_empty results); reflexivity.
    + unfold CourseSearchTool.execute. rewrite Hs. reflexivity.
  - unfold ToolManager.reset_sources. cbn [ToolManager.tools].
    induction (ToolManager.tools m) as [|[name tool] entries IH]; cbn [map].
    + constructor.
    + constructor; [|exact IH].
      cbn [fst snd].
      destruct tool as [tool|tool|tool]; cbn; try (repeat split; reflexivity).
      destruct (other_last_sources tool); cbn; repeat split; reflexivity.
Qed.

(** ** ToolManager *)

(** C6: in a registry with distinct names, [execute_tool] on a registered
    name returns exactly what that tool's [execute] returns on the same
    keyword arguments; on a name that is not registered it returns the
    string [Tool '<name>' not found], raises nothing and leaves the
    manager as it was. In both cases the registered names stay the
    same. *)
Theorem C6_dispatch_by_name json_loads m tool_name kwargs :
  NoDup (map fst (ToolManager.tools m)) ->
  (forall tool,
      In (tool_name, tool) (ToolManager.tools m) ->
      fst (ToolManager.execute_tool json_loads m tool_name kwargs)
      = fst (tool_execute json_loads tool kwargs)) /\
  (~ In tool_name (map fst (ToolManager.tools m)) ->
   ToolManager.execute_tool json_loads m tool_name kwargs
   = (Return ("Tool '" +:+ tool_name +:+ "' not found"), m)) /\
  map fst (ToolManager.tools (snd (ToolManager.execute_tool json_loads m tool_name kwargs)))
  = map fst (ToolManager.tools m).
Proof.
  intros Hnd. unfold ToolManager.execute_tool. repeat split.
  - intros tool Hin. rewrite (dict_get_In _ _ _ Hnd Hin).
    now destruct (tool_execute json_loads tool kwargs).
  - intros Hout. apply dict_get_None in Hout. now rewrite Hout.
  - destruct (dict_get tool_name (ToolManager.tools m)) as [tool|] eqn:Hg; [|reflexivity].
    destruct (tool_execute json_loads tool kwargs) as [r tool'].
    cbn [snd ToolManager.tools]. rewrite dict_set_keys, Hg. reflexivity.
Qed.

(** C6 on the sample manager, for a registered and for an unknown name. *)
Lemma C6_dispatch_by_name_witness :
  fst (ToolManager.execute_tool Sample.json_loads Sample.manager "other" ∅)
  = Return "Tool executed successfully" /\
  ToolManager.execute_tool Sample.json_loads Sample.manager "nonexistent_tool" ∅
  = (Return "Tool 'nonexistent_tool' not found", Sample.manager).
Proof.
  assert (Hnd : NoDup (map fst (ToolManager.tools Sample.manager))).
  { apply (bool_decide_unpack _). vm_compute. exact I. }
  destruct (C6_dispatch_by_name Sample.json_loads Sample.manager "other" ∅ Hnd)
    as [Hin _].
  destruct (C6_dispatch_by_name Sample.json_loads Sample.manager "nonexistent_tool" ∅ Hnd)
    as (_ & Hout & _).
  split.
  - rewrite (Hin (Sample.stub (Some "other") (Some [Sample.other_source]))).
    + reflexivity.
    + cbn. tauto.
  - apply Hout. apply (bool_decide_unpack _). vm_compute. exact I.
Defined.

(** C7, as worded, fails: with two registered tools that both hold
    sources, the list returned is that of the first one; the source of the
    second tool is not in it. *)
Lemma C7_second_tool_not_reflected : ~ sources_aggregated.
Proof.
  intros H.
  specialize (H Sample.manager "other"
                (Sample.stub (Some "other") (Some [Sample.other_source]))
                [Sample.other_source] Sample.other_source).
  cbn in H.
  destruct H as [H|[]]; [tauto|reflexivity|now left|].
  discriminate H.
Qed.

(** C7, amended: [get_last_sources] returns the [last_sources] list of the
    first registered tool, in registration order, that holds a non-empty
    list, and nothing of the tools after it; it returns the empty list
    when no registered tool holds any sources. *)
Theorem C7_first_tool_with_sources m :
  (forall before name tool after s ss,
      ToolManager.tools m = before ++ (name, tool) :: after ->
      Forall (fun entry => holds_no_sources (snd entry)) before ->
      tool_last_sources tool = Some (s :: ss) ->
      ToolManager.get_last_sources m = s :: ss) /\
  (Forall (fun entry => holds_no_sources (snd entry)) (ToolManager.tools m) ->
   ToolManager.get_last_sources m = []).
Proof.
  unfold ToolManager.get_last_sources. split.
  - intros before name tool after s ss -> Hbefore Htool.
    induction Hbefore as [|[k v] before Hv _ IH]; cbn [app map snd ToolManager.first_sources].
    + now rewrite Htool.
    + destruct Hv as [Hv|Hv]; cbn [snd] in Hv; rewrite Hv; exact IH.
  - induction 1 as [|[k v] entries Hv _ IH]; cbn [map snd ToolManager.first_sources].
    + reflexivity.
    + destruct Hv as [Hv|Hv]; cbn [snd] in Hv; rewrite Hv; exact IH.
Qed.

(** C7 on the sample manager, before and after a reset. *)
Lemma C7_first_tool_with_sources_witness :
  ToolManager.get_last_sources Sample.manager = [Sample.old_source] /\
  ToolManager.get_last_sources (ToolManager.reset_sources Sample.manager) = [].
Proof.
  split.
  - apply (proj1 (C7_first_tool_with_sources Sample.manager)
             [] "search_course_content" (SearchTool (Sample.used_tool Sample.two_hits))
             [("other", Sample.stub (Some "other") (Some [Sample.other_source]));
              ("get_course_outline",
               OutlineTool (CourseOutlineTool.__init__ (Sample.store_of Sample.two_hits)))]).
    + reflexivity.
    + constructor.
    + reflexivity.
  - apply (proj2 (C7_first_tool_with_sources (ToolManager.reset_sources Sample.manager))).
    cbn. repeat apply Forall_cons; try apply Forall_nil; unfold holds_no_sources; cbn; auto.
Defined.

(** ** Exceptions from the store *)

(** C8, as worded, fails: when the catalog lookup of the outline tool
    raises, [execute] returns an error text instead of raising. *)
Lemma C8_catalog_exception_is_caught : ~ store_exceptions_propagate.
Proof.
  intros (_ & _ & H).
  assert (Hne : "Test Course" <> "") by discriminate.
  specialize (H Sample.json_loads (Sample.broken_catalog_tool Sample.boom)
                (PyStr "Test") "Test Course" Sample.boom eq_refl Hne eq_refl).
  vm_compute in H. discriminate H.
Qed.

(** C8, amended: an exception raised by the store's search leaves
    [CourseSearchTool.execute] unchanged, and so does one raised by the
    name resolution of [CourseOutlineTool.execute]. An exception raised by
    the catalog lookup of the outline tool is caught when its class
    derives from [Exception]: [execute] then returns the text
    [Error retrieving course outline: ] followed by [str(e)]; any other
    exception passes through. *)
Theorem C8_store_exceptions json_loads search_tool outline_tool
    query course_name lesson_number e :
  (search (CourseSearchTool.store search_tool) query course_name lesson_number = Raise e ->
   CourseSearchTool.execute search_tool query course_name lesson_number
   = (Raise e, search_tool)) /\
  (_resolve_course_name (CourseOutlineTool.store outline_tool) course_name = Raise e ->
   CourseOutlineTool.execute json_loads outline_tool course_name = Raise e) /\
  (forall title,
      _resolve_course_name (CourseOutlineTool.store outline_tool) course_name
      = Return (Some title) ->
      title <> "" ->
      course_catalog_get (CourseOutlineTool.store outline_tool) [title] = Raise e ->
      CourseOutlineTool.execute json_loads outline_tool course_name
      = if exn_is_Exception e
        then Return ("Error retrieving course outline: " +:+ exn_str e)
        else Raise e).
Proof.
  repeat split.
  - intros Hs. unfold CourseSearchTool.execute. now rewrite Hs.
  - intros Hr. unfold CourseOutlineTool.execute. now rewrite Hr.
  - intros title Hr Hne Hget.
    rewrite (execute_resolved _ _ _ _ Hr Hne).
    unfold CourseOutlineTool.render_outline. rewrite Hget. reflexivity.
Qed.

(** C8 on tools whose store raises in each of the three places. *)
Lemma C8_store_exceptions_witness :
  CourseSearchTool.execute (Sample.broken_search_tool Sample.boom) (PyStr "q") PyNone PyNone
  = (Raise Sample.boom, Sample.broken_search_tool Sample.boom) /\
  CourseOutlineTool.execute Sample.json_loads (Sample.broken_resolver_tool Sample.boom)
    (PyStr "Test") = Raise Sample.boom /\
  CourseOutlineTool.execute Sample.json_loads (Sample.broken_catalog_tool Sample.boom)
    (PyStr "Test") = Return "Error retrieving course outline: connection lost" /\
  CourseOutlineTool.execute Sample.json_loads (Sample.broken_catalog_tool Sample.interrupt)
    (PyStr "Test") = Raise Sample.interrupt.
Proof.
  split; [|split; [|split]].
  - apply (C8_store_exceptions Sample.json_loads (Sample.broken_search_tool Sample.boom)
             Sample.outline_tool (PyStr "q") PyNone PyNone Sample.boom).
    reflexivity.
  - apply (C8_store_exceptions Sample.json_loads (Sample.broken_search_tool Sample.boom)
             (Sample.broken_resolver_tool Sample.boom) (PyStr "q") (PyStr "Test") PyNone
             Sample.boom).
    reflexivity.
  - apply (proj2 (proj2 (C8_store_exceptions Sample.json_loads
             (Sample.broken_search_tool Sample.boom)
             (Sample.broken_catalog_tool Sample.boom) (PyStr "q") (PyStr "Test") PyNone
             Sample.boom)) "Test Course").
    + reflexivity.
    + discriminate.
    + reflexivity.
  - apply (proj2 (proj2 (C8_store_exceptions Sample.json_loads
             (Sample.broken_search_tool Sample.boom)
             (Sample.broken_catalog_tool Sample.interrupt) (PyStr "q") (PyStr "Test") PyNone
             Sample.interrupt)) "Test Course").
    + reflexivity.
    + discriminate.
    + reflexivity.
Defined.

(** ** CourseOutlineTool.execute *)

(** C9, as worded, fails: a course that resolves and has catalog metadata
    whose lesson list does not decode gets an error text, not an outline:
    what [execute] returns does not start with [Course: ]. *)
Lemma C9_undecodable_lessons_give_no_outline : ~ outline_for_every_catalog_entry.
Proof.
  intros H.
  assert (Hne : "Test Course" <> "") by discriminate.
  destruct (H Sample.decode_lessons
              (Sample.outline_tool_for Sample.course_with_broken_lessons)
              (PyStr "Test") "Test Course" Sample.course_with_broken_lessons []
              eq_refl Hne eq_refl) as [rest Hrest].
  vm_compute in Hrest. discriminate Hrest.
Qed.

(** C9, amended: when the store resolves the course name to a title, the
    catalog has metadata for it and its lesson list decodes, [execute]
    returns the outline lines joined by line feeds. The first line is
    [Course: ] and the title of the metadata ([Unknown Course] without
    one); there is a [Course Link: ] line exactly when the metadata has a
    non-empty link; the lessons come last, one line each of the form
    [Lesson <number>: <title>], every lesson once, in ascending lesson
    number (a lesson without a number counting as 0), lessons of the same
    number in their catalog order. When the lesson list does not decode,
    [execute] returns [Error retrieving course outline: ] and the
    decoder's message. When the name does not resolve, [execute] returns
    [No course found matching '<course_name>']. *)
Theorem C9_outline_rendered json_loads self course_name :
  (forall title entry others lessons,
      _resolve_course_name (CourseOutlineTool.store self) course_name = Return (Some title) ->
      title <> "" ->
      course_catalog_get (CourseOutlineTool.store self) [title]
      = Return (Some (entry :: others)) ->
      json_loads (match cat_lessons_json entry with
                  | Some lessons_json => lessons_json
                  | None => "[]"
                  end) = Return lessons ->
      exists ordered,
        Permutation ordered lessons /\
        StronglySorted
          (fun a b => match lesson_number a with Some n => n | None => 0 end
                      <= match lesson_number b with Some n => n | None => 0 end)
          ordered /\
        (forall k,
            filter (fun x => match lesson_number x with Some n => n | None => 0 end = k)
                   ordered
            = filter (fun x => match lesson_number x with Some n => n | None => 0 end = k)
                     lessons) /\
        CourseOutlineTool.execute json_loads self course_name
        = Return (join nl (outline_as_specified entry ordered)) /\
        (exists rest,
            join nl (outline_as_specified entry ordered)
            = "Course: " +:+ match cat_title entry with
                             | Some t => t
                             | None => "Unknown Course"
                             end +:+ nl +:+ rest) /\
        (forall l, In ("Course Link: " +:+ l) (outline_as_specified entry ordered)
                   <-> cat_course_link entry = Some l /\ l <> "")) /\
  (forall title entry others e,
      _resolve_course_name (CourseOutlineTool.store self) course_name = Return (Some title) ->
      title <> "" ->
      course_catalog_get (CourseOutlineTool.store self) [title]
      = Return (Some (entry :: others)) ->
      json_loads (match cat_lessons_json entry with
                  | Some lessons_json => lessons_json
                  | None => "[]"
                  end) = Raise e ->
      exn_is_Exception e = true ->
      CourseOutlineTool.execute json_loads self course_name
      = Return ("Error retrieving course outline: " +:+ exn_str e)) /\
  (forall resolved,
      _resolve_course_name (CourseOutlineTool.store self) course_name = Return resolved ->
      truthy_opt resolved = false ->
      CourseOutlineTool.execute json_loads self course_name
      = Return ("No course found matching '" +:+ str course_name +:+ "'")).
Proof.
  split; [|split].
  - intros title entry others lessons Hr Hne Hget Hjson.
    assert (Hjson' : json_loads (default "[]" (cat_lessons_json entry)) = Return lessons).
    { now destruct (cat_lessons_json entry). }
    exists (sorted CourseOutlineTool.lesson_key lessons).
    split; [apply sorted_perm|].
    split; [exact (sorted_ascending CourseOutlineTool.lesson_key lessons)|].
    split; [intros k; exact (sorted_stable CourseOutlineTool.lesson_key k lessons)|].
    split.
    { rewrite (execute_resolved _ _ _ _ Hr Hne).
      rewrite (render_outline_spec _ _ _ _ _ _ Hget Hjson').
      now rewrite outline_lines_as_specified. }
    split; [apply outline_starts_with_title|].
    intros l. rewrite <- outline_lines_as_specified. apply link_line_in_outline.
  - intros title entry others e Hr Hne Hget Hjson He.
    assert (Hjson' : json_loads (default "[]" (cat_lessons_json entry)) = Raise e).
    { now destruct (cat_lessons_json entry). }
    rewrite (execute_resolved _ _ _ _ Hr Hne).
    unfold CourseOutlineTool.render_outline. rewrite Hget. cbn [bind].
    rewrite Hjson'. cbn [bind try_except]. now rewrite He.
  - intros resolved Hr Hfalse. unfold CourseOutlineTool.execute.
    rewrite Hr. cbn [bind]. rewrite Hfalse. reflexivity.
Qed.

(** C9 on a course with a link and three lessons stored as JSON text, on
    the same course with a lesson list that does not decode, and on an
    unknown course. *)
Lemma C9_outline_rendered_witness :
  CourseOutlineTool.execute Sample.decode_lessons
    (Sample.outline_tool_for Sample.course_with_lessons) (PyStr "Test")
  = Return ("Course: Test Course" +:+ nl +:+
            "Course Link: http://test.com" +:+ nl +:+ nl +:+
            "Lessons (3 total):" +:+ nl +:+
            "  Lesson 0: Intro" +:+ nl +:+
            "  Lesson 1: Untitled" +:+ nl +:+
            "  Lesson 2: Second") /\
  CourseOutlineTool.execute Sample.decode_lessons
    (Sample.outline_tool_for Sample.course_with_broken_lessons) (PyStr "Test")
  = Return "Error retrieving course outline: Expecting value: line 1 column 1 (char 0)" /\
  CourseOutlineTool.execute Sample.decode_lessons Sample.empty_outline_tool (PyStr "Test")
  = Return "No course found matching 'Test'".
Proof.
  assert (Hne : "Test Course" <> "") by discriminate.
  split; [|split].
  - destruct (proj1 (C9_outline_rendered Sample.decode_lessons
                       (Sample.outline_tool_for Sample.course_with_lessons) (PyStr "Test"))
                "Test Course" Sample.course_with_lessons [] Sample.lessons
                eq_refl Hne eq_refl eq_refl) as (ordered & _ & _ & _ & H & _).
    vm_compute. reflexivity.
  - apply (proj1 (proj2 (C9_outline_rendered Sample.decode_lessons
                           (Sample.outline_tool_for Sample.course_with_broken_lessons)
                           (PyStr "Test")))
             "Test Course" Sample.course_with_broken_lessons []
             (Exn "JSONDecodeError" true "Expecting value: line 1 column 1 (char 0)")).
    + reflexivity.
    + exact Hne.
    + reflexivity.
    + reflexivity.
    + reflexivity.
  - apply (proj2 (proj2 (C9_outline_rendered Sample.decode_lessons Sample.empty_outline_tool
                           (PyStr "Test"))) None).
    + reflexivity.
    + reflexivity.
Defined.

(** ** Registering a tool twice *)

(** C10: in a registry built by [register_tool], registering a tool under
    a name that is taken replaces the tool that was there, without an
    error and without a new entry: the names and their order stay, the
    name then looks up the new tool, the other names look up what they
    did, [execute_tool] on that name runs the new tool, and
    [get_tool_definitions] holds exactly one definition of that name, the
    new tool's. [register_tool] raises only for a definition that has no
    name, and what it raises then is the [ValueError]. *)
Theorem C10_reregistration_replaces json_loads m earlier later n kwargs :
  (registry_ok m ->
   dict_get n (ToolManager.tools m) = Some earlier ->
   def_name (get_tool_definition later) = Some n ->
   exists m',
     ToolManager.register_tool m later = Return m' /\
     registry_ok m' /\
     map fst (ToolManager.tools m') = map fst (ToolManager.tools m) /\
     dict_get n (ToolManager.tools m') = Some later /\
     (forall k, k <> n ->
        dict_get k (ToolManager.tools m') = dict_get k (ToolManager.tools m)) /\
     fst (ToolManager.execute_tool json_loads m' n kwargs)
     = fst (tool_execute json_loads later kwargs) /\
     filter (fun d => def_name d = Some n) (ToolManager.get_tool_definitions m')
     = [get_tool_definition later]) /\
  (forall tool,
      match ToolManager.register_tool m tool with
      | Return _ => has_name (get_tool_definition tool)
      | Raise e =>
          e = ValueError "Tool must have a 'name' in its definition" /\
          ~ has_name (get_tool_definition tool)
      end).
Proof.
  split.
  - intros Hok Hearlier Hlater.
    assert (Hne : n <> "") by exact (registered_name_nonempty _ _ _ Hok Hearlier).
    pose proof (register_tool_named m later n Hlater Hne) as Hreg.
    set (m' := {| ToolManager.tools := dict_set n later (ToolManager.tools m) |}) in *.
    pose proof (register_tool_ok _ _ _ Hok Hreg) as Hok'.
    assert (Hget : dict_get n (ToolManager.tools m') = Some later)
      by apply dict_get_set_eq.
    exists m'. repeat split; try assumption.
    + apply Hok'.
    + apply Hok'.
    + subst m'. cbn [ToolManager.tools]. now rewrite dict_set_keys, Hearlier.
    + intros k Hk. subst m'. cbn [ToolManager.tools].
      apply dict_get_set_ne. congruence.
    + unfold ToolManager.execute_tool. rewrite Hget.
      now destruct (tool_execute json_loads later kwargs).
    + destruct Hok' as [Hnd Hall]. now apply one_definition.
  - intros tool. unfold ToolManager.register_tool, has_name.
    destruct (def_name (get_tool_definition tool)) as [name|]; cbn [truthy_opt].
    + destruct (String.eqb_spec name "") as [->|Hne]; cbn [negb].
      * split; [reflexivity|]. intros (x & [= <-] & Hx). now apply Hx.
      * now exists name.
    + cbn [negb]. split; [reflexivity|]. intros (x & Hx & _). discriminate Hx.
Qed.

(** C10 on the sample manager: a stand-in is registered under the name of
    a tool that is already there. *)
Lemma C10_reregistration_replaces_witness :
  exists m',
    ToolManager.register_tool Sample.manager (Sample.stub2 (Some "other")) = Return m' /\
    registry_ok m' /\
    map fst (ToolManager.tools m') = map fst (ToolManager.tools Sample.manager) /\
    dict_get "other" (ToolManager.tools m') = Some (Sample.stub2 (Some "other")) /\
    (forall k, k <> "other" ->
       dict_get k (ToolManager.tools m') = dict_get k (ToolManager.tools Sample.manager)) /\
    fst (ToolManager.execute_tool Sample.json_loads m' "other" ∅)
    = fst (tool_execute Sample.json_loads (Sample.stub2 (Some "other")) ∅) /\
    filter (fun d => def_name d = Some "other") (ToolManager.get_tool_definitions m')
    = [get_tool_definition (Sample.stub2 (Some "other"))].
Proof.
  apply (proj1 (C10_reregistration_replaces Sample.json_loads Sample.manager
                  (Sample.stub (Some "other") (Some [Sample.other_source]))
                  (Sample.stub2 (Some "other")) "other" ∅)).
  - split.
    + apply (bool_decide_unpack _). vm_compute. exact I.
    + repeat constructor; discriminate.
  - reflexivity.
  - reflexivity.
Defined.


(** ** Further properties of the tool manager *)

Lemma apply_op_ok json_loads m op :
  registry_ok m -> registry_ok (apply_op json_loads m op).
Proof.
  intros Hok. destruct op as [tool|tool_name kwargs|]; cbn [apply_op].
  - destruct (ToolManager.register_tool m tool) as [m'|e] eqn:Hreg; [|exact Hok].
    exact (register_tool_ok _ _ _ Hok Hreg).
  - now apply execute_tool_ok.
  - now apply reset_sources_ok.
Qed.

(** X1: whatever sequence of registrations, tool runs and resets a caller
    performs on a new manager, the registry keeps distinct names and holds
    every tool under the non-empty name of its own definition. *)
Theorem X1_registry_invariant json_loads ops :
  registry_ok (run_ops json_loads ops).
Proof.
  unfold run_ops. generalize registry_ok_init.
  generalize ToolManager.__init__ as m.
  induction ops as [|op ops IH]; intros m Hok; cbn [fold_left].
  - exact Hok.
  - apply IH. now apply apply_op_ok.
Qed.

(** X2: the definitions handed out by [get_tool_definitions] carry the
    registered names, one definition per name, in the order of the
    registry, and no two of them share a name. *)
Theorem X2_definitions_follow_registry m :
  registry_ok m ->
  map def_name (ToolManager.get_tool_definitions m)
  = map Some (map fst (ToolManager.tools m)) /\
  NoDup (map def_name (ToolManager.get_tool_definitions m)).
Proof.
  intros [Hnd Hall].
  assert (Heq : map def_name (ToolManager.get_tool_definitions m)
                = map Some (map fst (ToolManager.tools m))).
  { unfold ToolManager.get_tool_definitions. rewrite !map_map.
    induction Hall as [|entry d [Hhd _] _ IH]; cbn [map]; [reflexivity|].
    apply NoDup_cons in Hnd as [_ Hnd]. now rewrite Hhd, IH. }
  split; [exact Heq|].
  rewrite Heq. apply (NoDup_fmap_2 Some). exact Hnd.
Qed.

Lemma X2_definitions_follow_registry_witness :
  map def_name (ToolManager.get_tool_definitions Sample.manager)
  = [Some "search_course_content"; Some "other"; Some "get_course_outline"] /\
  NoDup (map def_name (ToolManager.get_tool_definitions Sample.manager)).
Proof.
  apply (X2_definitions_follow_registry Sample.manager).
  split.
  - apply (bool_decide_unpack _). vm_compute. exact I.
  - repeat constructor; discriminate.
Defined.

Lemma dict_set_fresh {V : Type} k (v : V) d :
  dict_get k d = None -> dict_set k v d = d ++ [(k, v)].
Proof.
  induction d as [|[k' v'] d IH]; cbn [dict_get dict_set app]; [reflexivity|].
  destruct (String.eqb k k'); [discriminate|].
  intros Hg. now rewrite IH.
Qed.

(** X3: registering a tool under a name that is not taken puts it behind
    the tools that are there: the registry and the list of definitions
    both grow by one entry at the end. *)
Theorem X3_fresh_name_is_appended m tool n :
  def_name (get_tool_definition tool) = Some n ->
  n <> "" ->
  dict_get n (ToolManager.tools m) = None ->
  exists m',
    ToolManager.register_tool m tool = Return m' /\
    ToolManager.tools m' = ToolManager.tools m ++ [(n, tool)] /\
    ToolManager.get_tool_definitions m'
    = ToolManager.get_tool_definitions m ++ [get_tool_definition tool].
Proof.
  intros Hn Hne Hfresh. eexists. split; [exact (register_tool_named m tool n Hn Hne)|].
  unfold ToolManager.get_tool_definitions. cbn [ToolManager.tools].
  rewrite (dict_set_fresh _ _ _ Hfresh), map_app. split; reflexivity.
Qed.

Lemma X3_fresh_name_is_appended_witness :
  exists m',
    ToolManager.register_tool Sample.manager (Sample.stub2 (Some "new_tool")) = Return m' /\
    ToolManager.tools m'
    = ToolManager.tools Sample.manager ++ [("new_tool", Sample.stub2 (Some "new_tool"))] /\
    ToolManager.get_tool_definitions m'
    = ToolManager.get_tool_definitions Sample.manager
      ++ [get_tool_definition (Sample.stub2 (Some "new_tool"))].
Proof.
  apply (X3_fresh_name_is_appended Sample.manager (Sample.stub2 (Some "new_tool")) "new_tool").
  - reflexivity.
  - discriminate.
  - reflexivity.
Defined.

(** X4: a registration that succeeds can be looked up again: the tool is
    found under the name of its definition, [execute_tool] with that name
    runs it, and every other name still leads to the tool it led to. *)
Theorem X4_register_then_dispatch json_loads m tool m' kwargs :
  ToolManager.register_tool m tool = Return m' ->
  exists n,
    def_name (get_tool_definition tool) = Some n /\
    dict_get n (ToolManager.tools m') = Some tool /\
    fst (ToolManager.execute_tool json_loads m' n kwargs)
    = fst (tool_execute json_loads tool kwargs) /\
    (forall k, k <> n ->
       dict_get k (ToolManager.tools m') = dict_get k (ToolManager.tools m)).
Proof.
  unfold ToolManager.register_tool.
  destruct (truthy_opt (def_name (get_tool_definition tool))) eqn:Ht; cbn [negb];
    [|discriminate].
  apply truthy_opt_Some in Ht as (n & Hn & Hne). rewrite Hn. cbn [default].
  intros [= <-]. exists n. cbn [ToolManager.tools].
  split; [reflexivity|]. split; [apply dict_get_set_eq|]. split.
  - unfold ToolManager.execute_tool. cbn [ToolManager.tools].
    rewrite dict_get_set_eq. now destruct (tool_execute json_loads tool kwargs).
  - intros k Hk. apply dict_get_set_ne. congruence.
Qed.

Lemma X4_register_then_dispatch_witness :
  exists n,
    def_name (get_tool_definition (Sample.stub2 (Some "new_tool"))) = Some n /\
    dict_get n (dict_set "new_tool" (Sample.stub2 (Some "new_tool"))
                  (ToolManager.tools Sample.manager))
    = Some (Sample.stub2 (Some "new_tool")) /\
    fst (ToolManager.execute_tool Sample.json_loads
           {| ToolManager.tools :=
                dict_set "new_tool" (Sample.stub2 (Some "new_tool"))
                  (ToolManager.tools Sample.manager) |} n ∅)
    = fst (tool_execute Sample.json_loads (Sample.stub2 (Some "new_tool")) ∅) /\
    (forall k, k <> n ->
       dict_get k (dict_set "new_tool" (Sample.stub2 (Some "new_tool"))
                     (ToolManager.tools Sample.manager))
       = dict_get k (ToolManager.tools Sample.manager)).
Proof.
  apply (X4_register_then_dispatch Sample.json_loads Sample.manager
           (Sample.stub2 (Some "new_tool"))
           {| ToolManager.tools :=
                dict_set "new_tool" (Sample.stub2 (Some "new_tool"))
                  (ToolManager.tools Sample.manager) |} ∅).
  reflexivity.
Defined.

Lemma tool_set_last_sources_read tool sources :
  tool_last_sources tool <> None ->
  tool_last_sources (tool_set_last_sources tool sources) = Some sources.
Proof. destruct tool as [tool|tool|tool]; cbn; congruence. Qed.

(** X5: after [reset_sources], [get_last_sources] returns the empty list,
    whatever the tools held before. *)
Theorem X5_reset_clears_sources m :
  ToolManager.get_last_sources (ToolManager.reset_sources m) = [].
Proof.
  unfold ToolManager.get_last_sources, ToolManager.reset_sources.
  cbn [ToolManager.tools].
  induction (ToolManager.tools m) as [|[k tool] d IH];
    cbn [map snd fst ToolManager.first_sources]; [reflexivity|].
  destruct (tool_last_sources tool) as [old|] eqn:Hs; cbn [snd].
  - rewrite tool_set_last_sources_read by congruence. exact IH.
  - rewrite Hs. exact IH.
Qed.

Lemma reset_sources_keys m :
  map fst (ToolManager.tools (ToolManager.reset_sources m)) = map fst (ToolManager.tools m).
Proof.
  unfold ToolManager.reset_sources. cbn [ToolManager.tools].
  rewrite map_map. apply map_ext. intros [k tool]. cbn [fst snd].
  now destruct (tool_last_sources tool).
Qed.

(** X6: [reset_sources] changes nothing but the sources: the names, their
    order and the tool definitions stay, and a second reset changes
    nothing at all. *)
Theorem X6_reset_keeps_registry m :
  map fst (ToolManager.tools (ToolManager.reset_sources m)) = map fst (ToolManager.tools m) /\
  ToolManager.get_tool_definitions (ToolManager.reset_sources m)
  = ToolManager.get_tool_definitions m /\
  ToolManager.reset_sources (ToolManager.reset_sources m) = ToolManager.reset_sources m.
Proof.
  split; [apply reset_sources_keys|].
  unfold ToolManager.get_tool_definitions, ToolManager.reset_sources.
  cbn [ToolManager.tools]. split.
  - rewrite map_map. apply map_ext. intros [k tool]. cbn [fst snd].
    destruct (tool_last_sources tool) eqn:Hs; [|reflexivity].
    cbn [snd]. now destruct tool.
  - f_equal. rewrite map_map. apply map_ext. intros [k tool]. cbn [fst snd].
    destruct (tool_last_sources tool) as [old|] eqn:Hs; cbn [fst snd].
    + rewrite tool_set_last_sources_read by congruence.
      now destruct tool.
    + now rewrite Hs.
Qed.

Lemma dict_set_same_image {V W : Type} (f : V -> W) k (v v' : V) d :
  dict_get k d = Some v -> f v' = f v ->
  map (fun entry => f (snd entry)) (dict_set k v' d)
  = map (fun entry => f (snd entry)) d.
Proof.
  intros Hg Hf. induction d as [|[k0 v0] d IH]; cbn [dict_get dict_set] in *;
    [discriminate|].
  destruct (String.eqb k k0); cbn [map snd].
  - injection Hg as ->. now rewrite Hf.
  - now rewrite IH.
Qed.

(** X7: running a tool through the manager touches that tool only: every
    other name leads to the same tool in the same state, and the list of
    tool definitions is what it was. *)
Theorem X7_execute_tool_frame json_loads m tool_name kwargs :
  (forall k, k <> tool_name ->
     dict_get k (ToolManager.tools (snd (ToolManager.execute_tool json_loads m tool_name kwargs)))
     = dict_get k (ToolManager.tools m)) /\
  ToolManager.get_tool_definitions (snd (ToolManager.execute_tool json_loads m tool_name kwargs))
  = ToolManager.get_tool_definitions m.
Proof.
  unfold ToolManager.execute_tool.
  destruct (dict_get tool_name (ToolManager.tools m)) as [tool|] eqn:Hg;
    [|split; reflexivity].
  pose proof (tool_execute_definition json_loads tool kwargs) as Hdef.
  destruct (tool_execute json_loads tool kwargs) as [r tool']. cbn [snd] in *.
  cbn [ToolManager.tools]. split.
  - intros k Hk. apply dict_get_set_ne. congruence.
  - unfold ToolManager.get_tool_definitions. cbn [ToolManager.tools].
    exact (dict_set_same_image get_tool_definition _ _ _ _ Hg Hdef).
Qed.

Lemma X7_execute_tool_frame_witness :
  (forall k, k <> "search_course_content" ->
     dict_get k (ToolManager.tools
                   (snd (ToolManager.execute_tool Sample.json_loads Sample.manager
                           "search_course_content" {["query" := PyStr "q"]})))
     = dict_get k (ToolManager.tools Sample.manager)) /\
  ToolManager.get_tool_definitions
    (snd (ToolManager.execute_tool Sample.json_loads Sample.manager
            "search_course_content" {["query" := PyStr "q"]}))
  = ToolManager.get_tool_definitions Sample.manager.
Proof.
  apply (X7_execute_tool_frame Sample.json_loads Sample.manager
           "search_course_content" {["query" := PyStr "q"]}).
Defined.

Lemma first_sources_after_set name tool tool' (d : list (string * Tool)) :
  NoDup (map fst d) ->
  dict_get name d = Some tool ->
  Forall (fun entry => fst entry = name \/ holds_no_sources (snd entry)) d ->
  ToolManager.first_sources (map snd (dict_set name tool' d))
  = match tool_last_sources tool' with
    | Some sources => sources
    | None => []
    end.
Proof.
  intros Hnd Hg Hall. revert Hnd Hg.
  induction Hall as [|[k v] d Hhd Htl IH]; cbn [dict_get dict_set map fst];
    [discriminate|].
  intros [Hk Hnd]%NoDup_cons.
  destruct (String.eqb_spec name k) as [->|Hne].
  - intros _. cbn [map snd ToolManager.first_sources].
    assert (Hrest : ToolManager.first_sources (map snd d) = []).
    { clear IH. induction Htl as [|[k0 v0] d [Hk0|Hv0] Htl' IH'];
        cbn [map snd ToolManager.first_sources]; [reflexivity| |].
      - exfalso. apply Hk. cbn [fst] in Hk0. subst k0. cbn [map fst].
        apply list_elem_of_here.
      - cbn [map fst] in Hk, Hnd. apply NoDup_cons in Hnd as [_ Hnd].
        rewrite not_elem_of_cons in Hk. destruct Hk as [_ Hk].
        cbn [snd] in Hv0. destruct Hv0 as [-> | ->]; now apply IH'. }
    rewrite Hrest. now destruct (tool_last_sources tool') as [[|s ss]|].
  - intros Hg. cbn [map snd ToolManager.first_sources].
    destruct Hhd as [Hhd|Hhd]; cbn [fst snd] in Hhd; [congruence|].
    destruct Hhd as [-> | ->]; now apply IH.
Qed.

Lemma get_last_sources_after_search json_loads m tool_name search_tool kwargs :
  NoDup (map fst (ToolManager.tools m)) ->
  dict_get tool_name (ToolManager.tools m) = Some (SearchTool search_tool) ->
  Forall (fun entry => fst entry = tool_name \/ holds_no_sources (snd entry))
         (ToolManager.tools m) ->
  Some (ToolManager.get_last_sources
          (snd (ToolManager.execute_tool json_loads m tool_name kwargs)))
  = tool_last_sources (snd (tool_execute json_loads (SearchTool search_tool) kwargs)).
Proof.
  intros Hnd Hg Hall. unfold ToolManager.execute_tool, ToolManager.get_last_sources.
  rewrite Hg.
  destruct (tool_execute json_loads (SearchTool search_tool) kwargs) as [r tool'] eqn:He.
  cbn [snd ToolManager.tools].
  rewrite (first_sources_after_set _ _ tool' _ Hnd Hg Hall).
  assert (Hsome : tool_last_sources tool' <> None).
  { cbn [tool_execute] in He.
    destruct (bool_decide _); [|injection He as _ <-; discriminate].
    destruct (kwargs !! "query"); [|injection He as _ <-; discriminate].
    destruct (CourseSearchTool.execute _ _ _ _). injection He as _ <-. discriminate. }
  now destruct (tool_last_sources tool').
Qed.

(** X8: in a registry where only the search tool can hold sources, what
    [get_last_sources] returns right after the search tool has been run
    through [execute_tool] is exactly the [last_sources] list the tool
    holds after that run. *)
Theorem X8_sources_after_search json_loads m tool_name search_tool kwargs :
  NoDup (map fst (ToolManager.tools m)) ->
  dict_get tool_name (ToolManager.tools m) = Some (SearchTool search_tool) ->
  Forall (fun entry => fst entry = tool_name \/ holds_no_sources (snd entry))
         (ToolManager.tools m) ->
  Some (ToolManager.get_last_sources
          (snd (ToolManager.execute_tool json_loads m tool_name kwargs)))
  = tool_last_sources (snd (tool_execute json_loads (SearchTool search_tool) kwargs)).
Proof. apply get_last_sources_after_search. Qed.

Lemma X8_sources_after_search_witness :
  Some (ToolManager.get_last_sources
          (snd (ToolManager.execute_tool Sample.json_loads SampleApp.app_manager
                  "search_course_content" {["query" := PyStr "q"]})))
  = Some [source_of Sample.meta1; source_of Sample.meta2].
Proof.
  rewrite (X8_sources_after_search Sample.json_loads SampleApp.app_manager
             "search_course_content" SampleApp.fresh_search_tool {["query" := PyStr "q"]}).
  - vm_compute. reflexivity.
  - apply (bool_decide_unpack _). vm_compute. exact I.
  - reflexivity.
  - repeat apply Forall_cons; try apply Forall_nil; cbn; unfold holds_no_sources; auto.
Defined.

(** ** Further properties of the outline tool *)

(** X9: once the course name has been resolved without an exception,
    [CourseOutlineTool.execute] hands every exception of class
    [Exception] back as text: it returns a string, or it raises something
    that [except Exception] does not catch. *)
Theorem X9_outline_errors_become_text json_loads self course_name resolved :
  _resolve_course_name (CourseOutlineTool.store self) course_name = Return resolved ->
  (exists s, CourseOutlineTool.execute json_loads self course_name = Return s) \/
  (exists e, CourseOutlineTool.execute json_loads self course_name = Raise e /\
             exn_is_Exception e = false).
Proof.
  intros Hr. unfold CourseOutlineTool.execute. rewrite Hr. cbn [bind].
  destruct (truthy_opt resolved); cbn [negb]; [|left; eauto].
  destruct (CourseOutlineTool.render_outline json_loads self (default "" resolved))
    as [s|e]; cbn [try_except]; [left; eauto|].
  destruct (exn_is_Exception e) eqn:He; [left; eauto|right; eauto].
Qed.

Lemma X9_outline_errors_become_text_witness :
  (exists s, CourseOutlineTool.execute Sample.json_loads
               (Sample.broken_catalog_tool Sample.boom) (PyStr "Test") = Return s) \/
  (exists e, CourseOutlineTool.execute Sample.json_loads
               (Sample.broken_catalog_tool Sample.boom) (PyStr "Test") = Raise e /\
             exn_is_Exception e = false).
Proof.
  apply (X9_outline_errors_become_text Sample.json_loads
           (Sample.broken_catalog_tool Sample.boom) (PyStr "Test") (Some "Test Course")).
  reflexivity.
Defined.

(** X10: when the lesson list of the catalog entry does not decode, the
    exception of the decoder does not reach the caller; [execute] returns
    [Error retrieving course outline: ] followed by the decoder's
    message. *)
Theorem X10_undecodable_lessons json_loads self course_name title entry others e :
  _resolve_course_name (CourseOutlineTool.store self) course_name = Return (Some title) ->
  title <> "" ->
  course_catalog_get (CourseOutlineTool.store self) [title] = Return (Some (entry :: others)) ->
  json_loads (default "[]" (cat_lessons_json entry)) = Raise e ->
  exn_is_Exception e = true ->
  CourseOutlineTool.execute json_loads self course_name
  = Return ("Error retrieving course outline: " +:+ exn_str e).
Proof.
  intros Hr Hne Hget Hjson He.
  rewrite (execute_resolved _ _ _ _ Hr Hne).
  unfold CourseOutlineTool.render_outline. rewrite Hget. cbn [bind].
  rewrite Hjson. cbn [bind try_except]. now rewrite He.
Qed.

Lemma X10_undecodable_lessons_witness :
  CourseOutlineTool.execute Sample.json_loads
    (CourseOutlineTool.__init__
       (Sample.store_with (Return Sample.no_results) (Return (Some "Test Course"))
          (Return (Some [ {| cat_title := Some "Test Course"; cat_course_link := None;
                             cat_lessons_json := Some "{not json" |} ]))))
    (PyStr "Test")
  = Return "Error retrieving course outline: Expecting value".
Proof.
  assert (Hne : "Test Course" <> "") by discriminate.
  apply (X10_undecodable_lessons Sample.json_loads _ (PyStr "Test") "Test Course"
           {| cat_title := Some "Test Course"; cat_course_link := None;
              cat_lessons_json := Some "{not json" |} []
           (Exn "JSONDecodeError" true "Expecting value")).
  - reflexivity.
  - exact Hne.
  - reflexivity.
  - reflexivity.
  - reflexivity.
Defined.

(** X11: when the name resolves to a title for which the catalog returns
    no metadata, [execute] reports it under the resolved title, not under
    the name that was asked for. *)
Theorem X11_no_catalog_metadata json_loads self course_name title found :
  _resolve_course_name (CourseOutlineTool.store self) course_name = Return (Some title) ->
  title <> "" ->
  course_catalog_get (CourseOutlineTool.store self) [title] = Return found ->
  found = None \/ found = Some [] ->
  CourseOutlineTool.execute json_loads self course_name
  = Return ("No course metadata found for '" +:+ title +:+ "'").
Proof.
  intros Hr Hne Hget Hfound.
  rewrite (execute_resolved _ _ _ _ Hr Hne).
  unfold CourseOutlineTool.render_outline. rewrite Hget. cbn [bind].
  destruct Hfound as [-> | ->]; reflexivity.
Qed.

Lemma X11_no_catalog_metadata_witness :
  CourseOutlineTool.execute Sample.json_loads
    (CourseOutlineTool.__init__
       (Sample.store_with (Return Sample.no_results) (Return (Some "Test Course"))
          (Return (Some []))))
    (PyStr "test")
  = Return "No course metadata found for 'Test Course'".
Proof.
  assert (Hne : "Test Course" <> "") by discriminate.
  apply (X11_no_catalog_metadata Sample.json_loads _ (PyStr "test") "Test Course" (Some [])).
  - reflexivity.
  - exact Hne.
  - reflexivity.
  - now right.
Defined.

(** X12: lessons that share a lesson number appear in the outline in the
    order the catalog lists them, and a lesson without a number is sorted
    as lesson 0: for every number, the lessons of that number come out in
    their catalog order. *)
Theorem X12_outline_keeps_catalog_order json_loads self course_name title entry others lessons :
  _resolve_course_name (CourseOutlineTool.store self) course_name = Return (Some title) ->
  title <> "" ->
  course_catalog_get (CourseOutlineTool.store self) [title] = Return (Some (entry :: others)) ->
  json_loads (default "[]" (cat_lessons_json entry)) = Return lessons ->
  exists front ordered,
    CourseOutlineTool.execute json_loads self course_name
    = Return (join nl (front ++ map CourseOutlineTool.lesson_line ordered)) /\
    length ordered = length lessons /\
    forall k,
      filter (fun lesson => default 0 (lesson_number lesson) = k) ordered
      = filter (fun lesson => default 0 (lesson_number lesson) = k) lessons.
Proof.
  intros Hr Hne Hget Hjson.
  rewrite (execute_resolved _ _ _ _ Hr Hne).
  rewrite (render_outline_spec _ _ _ _ _ _ Hget Hjson). cbn [try_except].
  unfold outline_lines.
  destruct lessons as [|lesson lessons].
  - eexists _, []. cbn [map]. rewrite app_nil_r. repeat split; reflexivity.
  - eexists (_ :: _ ++ [_]), (sorted CourseOutlineTool.lesson_key (lesson :: lessons)).
    split; [|split].
    + cbn [app]. do 2 f_equal. rewrite <- app_assoc. reflexivity.
    + apply Permutation_length, sorted_perm.
    + intros k. apply (sorted_stable CourseOutlineTool.lesson_key).
Qed.

Lemma X12_outline_keeps_catalog_order_witness :
  exists front ordered,
    CourseOutlineTool.execute
      (fun _ => Return SampleApp.tied_lessons) Sample.outline_tool (PyStr "Test")
    = Return (join nl (front ++ map CourseOutlineTool.lesson_line ordered)) /\
    length ordered = length SampleApp.tied_lessons /\
    forall k,
      filter (fun lesson => default 0 (lesson_number lesson) = k) ordered
      = filter (fun lesson => default 0 (lesson_number lesson) = k) SampleApp.tied_lessons.
Proof.
  assert (Hne : "Test Course" <> "") by discriminate.
  apply (X12_outline_keeps_catalog_order (fun _ => Return SampleApp.tied_lessons)
           Sample.outline_tool (PyStr "Test") "Test Course" Sample.catalog_entry []
           SampleApp.tied_lessons).
  - reflexivity.
  - exact Hne.
  - reflexivity.
  - reflexivity.
Defined.

(** ** Further properties of the search tool *)

Lemma block_shows_source_text doc m :
  block_of (doc, m) = "[" +:+ text (source_of m) +:+ "]" +:+ nl +:+ doc.
Proof.
  unfold block_of, header_of, source_of. cbn [fst snd text]. now norm_append.
Qed.

(** X13: after a search that is formatted, the answer and the recorded
    sources line up: there are as many blocks as sources, and the i-th
    block is the text of the i-th source in brackets, a line feed, and the
    i-th document. *)
Theorem X13_blocks_match_sources self query course_name lesson_number results :
  search (CourseSearchTool.store self) query course_name lesson_number = Return results ->
  truthy_opt (error results) = false ->
  is_empty results = false ->
  let sources :=
    CourseSearchTool.last_sources
      (snd (CourseSearchTool.execute self query course_name lesson_number)) in
  exists blocks,
    fst (CourseSearchTool.execute self query course_name lesson_number)
    = Return (join (nl +:+ nl) blocks) /\
    length blocks = length sources /\
    forall i src, sources !! i = Some src ->
      exists doc, documents results !! i = Some doc /\
                  blocks !! i = Some ("[" +:+ text src +:+ "]" +:+ nl +:+ doc).
Proof.
  intros Hs He Hne sources. subst sources.
  rewrite (execute_returned _ _ _ _ _ Hs), He, Hne. cbn [fst snd].
  cbn [CourseSearchTool.set_last_sources CourseSearchTool.last_sources].
  rewrite <- map_snd_zip.
  exists (map block_of (zip (documents results) (metadata results))).
  split; [reflexivity|]. split; [now rewrite !length_map|].
  intros i src Hi. rewrite list_lookup_fmap in Hi. rewrite list_lookup_fmap.
  destruct (zip (documents results) (metadata results) !! i) as [[doc m]|] eqn:Hz;
    [|discriminate].
  injection Hi as <-. cbn [snd].
  apply lookup_zip_Some in Hz as [Hdoc _].
  exists doc. split; [exact Hdoc|]. cbn [fmap option_fmap option_map].
  now rewrite block_shows_source_text.
Qed.

Lemma X13_blocks_match_sources_witness :
  let sources :=
    CourseSearchTool.last_sources
      (snd (CourseSearchTool.execute (Sample.used_tool Sample.ragged)
              (PyStr "q") PyNone PyNone)) in
  exists blocks,
    fst (CourseSearchTool.execute (Sample.used_tool Sample.ragged) (PyStr "q") PyNone PyNone)
    = Return (join (nl +:+ nl) blocks) /\
    length blocks = length sources /\
    forall i src, sources !! i = Some src ->
      exists doc, documents Sample.ragged !! i = Some doc /\
                  blocks !! i = Some ("[" +:+ text src +:+ "]" +:+ nl +:+ doc).
Proof.
  apply (X13_blocks_match_sources (Sample.used_tool Sample.ragged)
           (PyStr "q") PyNone PyNone Sample.ragged).
  - reflexivity.
  - reflexivity.
  - reflexivity.
Defined.

Lemma source_of_link_not_blank m : link_not_blank (source_of m).
Proof.
  unfold link_not_blank, source_of. cbn [link].
  destruct (meta_lesson_link m) as [l|]; [|discriminate].
  destruct (String.eqb_spec l "") as [->|Hne]; [discriminate|].
  intros [= ->]. now apply Hne.
Qed.

(** X14: a recorded source never carries an empty link. A new search tool
    holds no sources, and [execute] keeps the property: whatever the store
    answers, every source on [last_sources] afterwards has a non-empty
    link or none. *)
Theorem X14_links_never_blank self query course_name lesson_number vector_store :
  Forall link_not_blank (CourseSearchTool.last_sources (CourseSearchTool.__init__ vector_store)) /\
  (Forall link_not_blank (CourseSearchTool.last_sources self) ->
   Forall link_not_blank
     (CourseSearchTool.last_sources
        (snd (CourseSearchTool.execute self query course_name lesson_number)))).
Proof.
  split; [constructor|].
  intros Hold.
  destruct (search (CourseSearchTool.store self) query course_name lesson_number)
    as [results|e] eqn:Hs.
  - rewrite (execute_returned _ _ _ _ _ Hs).
    destruct (truthy_opt (error results)); [exact Hold|].
    destruct (is_empty results); [exact Hold|].
    cbn [snd CourseSearchTool.set_last_sources CourseSearchTool.last_sources].
    apply Forall_forall. intros s Hin.
    apply list_elem_of_In, in_map_iff in Hin as (m & <- & _).
    apply source_of_link_not_blank.
  - unfold CourseSearchTool.execute. rewrite Hs. exact Hold.
Qed.

Lemma X14_links_never_blank_witness :
  Forall link_not_blank
    (CourseSearchTool.last_sources
       (snd (CourseSearchTool.execute SampleApp.fresh_search_tool (PyStr "q") PyNone PyNone))).
Proof.
  apply (X14_links_never_blank SampleApp.fresh_search_tool (PyStr "q") PyNone PyNone
           (Sample.store_of Sample.two_hits)).
  constructor.
Defined.

(** X15: for an error-free search without documents, a non-empty course
    name and a lesson number other than 0 are both named in the answer,
    the course first: [No relevant content found in course '<name>' in
    lesson <n>.], and the tool is left as it was. *)
Theorem X15_filters_named self query name n results :
  search (CourseSearchTool.store self) query (PyStr name) (PyInt n) = Return results ->
  error results = None ->
  documents results = [] ->
  name <> "" ->
  n <> 0 ->
  CourseSearchTool.execute self query (PyStr name) (PyInt n)
  = (Return ("No relevant content found in course '" +:+ name +:+ "' in lesson "
             +:+ str_int n +:+ "."), self).
Proof.
  intros Hs He Hd Hname Hn.
  apply (no_content_message _ _ _ _ _ Hs).
  - now rewrite He.
  - unfold is_empty. now rewrite Hd.
  - cbn [truthy]. now rewrite eqb_empty_false.
  - cbn [truthy]. apply negb_true_iff. now apply Z.eqb_neq.
Qed.

Lemma X15_filters_named_witness :
  CourseSearchTool.execute (Sample.used_tool Sample.no_results) (PyStr "nonexistent query")
    (PyStr "Nonexistent Course") (PyInt 99)
  = (Return "No relevant content found in course 'Nonexistent Course' in lesson 99.",
     Sample.used_tool Sample.no_results).
Proof.
  assert (Hname : "Nonexistent Course" <> "") by discriminate.
  assert (Hn : 99 <> 0) by discriminate.
  apply (X15_filters_named (Sample.used_tool Sample.no_results) (PyStr "nonexistent query")
           "Nonexistent Course" 99 Sample.no_results).
  - reflexivity.
  - reflexivity.
  - reflexivity.
  - exact Hname.
  - exact Hn.
Defined.

(** X16: an error-free result that has documents but no metadata at all
    is not reported as empty: [execute] returns the empty string and
    records an empty list of sources, dropping what the tool held. *)
Theorem X16_documents_without_metadata self query course_name lesson_number results :
  search (CourseSearchTool.store self) query course_name lesson_number = Return results ->
  error results = None ->
  documents results <> [] ->
  metadata results = [] ->
  CourseSearchTool.execute self query course_name lesson_number
  = (Return "", CourseSearchTool.set_last_sources self []).
Proof.
  intros Hs He Hd Hm.
  rewrite (execute_returned _ _ _ _ _ Hs), He. cbn [truthy_opt].
  unfold is_empty. destruct (documents results) as [|doc docs]; [contradiction|].
  rewrite Hm. reflexivity.
Qed.

Lemma X16_documents_without_metadata_witness :
  CourseSearchTool.execute (Sample.used_tool SampleApp.no_metadata) (PyStr "q") PyNone PyNone
  = (Return "", CourseSearchTool.set_last_sources (Sample.used_tool SampleApp.no_metadata) []).
Proof.
  assert (Hd : documents SampleApp.no_metadata <> []) by discriminate.
  apply (X16_documents_without_metadata (Sample.used_tool SampleApp.no_metadata)
           (PyStr "q") PyNone PyNone SampleApp.no_metadata).
  - reflexivity.
  - reflexivity.
  - exact Hd.
  - reflexivity.
Defined.

(** X17: the answer of [execute] does not depend on the sources of earlier
    searches: two tools on the same store give the same outcome whatever
    they hold on [last_sources], and when the call records sources, they
    record the same ones. *)
Theorem X17_answer_ignores_old_sources self held query course_name lesson_number :
  let other := CourseSearchTool.set_last_sources self held in
  fst (CourseSearchTool.execute other query course_name lesson_number)
  = fst (CourseSearchTool.execute self query course_name lesson_number) /\
  (CourseSearchTool.last_sources
     (snd (CourseSearchTool.execute other query course_name lesson_number))
   = CourseSearchTool.last_sources
       (snd (CourseSearchTool.execute self query course_name lesson_number))
   \/
   (snd (CourseSearchTool.execute other query course_name lesson_number) = other /\
    snd (CourseSearchTool.execute self query course_name lesson_number) = self)).
Proof.
  intros other. subst other.
  destruct (search (CourseSearchTool.store self) query course_name lesson_number)
    as [results|e] eqn:Hs.
  - assert (Hs' : search (CourseSearchTool.store (CourseSearchTool.set_last_sources self held))
                    query course_name lesson_number = Return results) by exact Hs.
    rewrite (execute_returned _ _ _ _ _ Hs), (execute_returned _ _ _ _ _ Hs').
    destruct (truthy_opt (error results)); [split; [reflexivity|right; split; reflexivity]|].
    destruct (is_empty results); [split; [reflexivity|right; split; reflexivity]|].
    split; [reflexivity|left; reflexivity].
  - unfold CourseSearchTool.execute. cbn [CourseSearchTool.set_last_sources CourseSearchTool.store].
    rewrite Hs. split; [reflexivity|right; split; reflexivity].
Qed.

(** ** The endpoints of the test application *)


(** X18: a request that brings a non-empty session id is answered under
    that id, and the session manager is not asked for a new one: the
    response is the same whatever [create_session] would do. *)
Theorem X18_session_id_kept rag_system request sid :
  TestApp.session_id request = Some sid ->
  sid <> "" ->
  (forall r, TestApp.query_documents rag_system request = TestApp.Respond r ->
             TestApp.response_session_id r = sid) /\
  (forall other_sessions,
      TestApp.query_documents
        {| TestApp.create_session := other_sessions;
           TestApp.rag_query := TestApp.rag_query rag_system;
           TestApp.get_course_analytics := TestApp.get_course_analytics rag_system |}
        request
      = TestApp.query_documents rag_system request).
Proof.
  intros Hsid Hne. unfold TestApp.query_documents.
  rewrite Hsid, (truthy_opt_nonempty _ Hne). cbn [negb default from_option id bind TestApp.rag_query].
  split; [|reflexivity].
  intros r.
  destruct (TestApp.rag_query rag_system (TestApp.query request) sid) as [[answer raw]|e];
    cbn [bind TestApp.guarded].
  - destruct (TestApp.convert_sources raw []) as [sources|e]; cbn [bind TestApp.guarded].
    + now intros [= <-].
    + destruct (exn_is_Exception e); discriminate.
  - destruct (exn_is_Exception e); discriminate.
Qed.

Lemma X18_session_id_kept_witness :
  (forall r, TestApp.query_documents SampleApp.rag SampleApp.request = TestApp.Respond r ->
             TestApp.response_session_id r = "test-session-123") /\
  (forall other_sessions,
      TestApp.query_documents
        {| TestApp.create_session := other_sessions;
           TestApp.rag_query := TestApp.rag_query SampleApp.rag;
           TestApp.get_course_analytics := TestApp.get_course_analytics SampleApp.rag |}
        SampleApp.request
      = TestApp.query_documents SampleApp.rag SampleApp.request).
Proof.
  assert (Hne : "test-session-123" <> "") by discriminate.
  apply (X18_session_id_kept SampleApp.rag SampleApp.request "test-session-123").
  - reflexivity.
  - exact Hne.
Defined.

(** X19: a request without a session id, or with an empty one, gets the
    id that [create_session] returns; when [create_session] raises an
    [Exception], the request fails with status 500 and the exception's
    text, and the query is not run. *)
Theorem X19_session_created rag_system request :
  truthy_opt (TestApp.session_id request) = false ->
  (forall sid r,
      TestApp.create_session rag_system = Return sid ->
      TestApp.query_documents rag_system request = TestApp.Respond r ->
      TestApp.response_session_id r = sid) /\
  (forall e,
      TestApp.create_session rag_system = Raise e ->
      exn_is_Exception e = true ->
      TestApp.query_documents rag_system request = TestApp.HTTPException 500 (exn_str e)).
Proof.
  intros Hnone. unfold TestApp.query_documents. rewrite Hnone. cbn [negb]. split.
  - intros sid r ->. cbn [bind].
    destruct (TestApp.rag_query rag_system (TestApp.query request) sid) as [[answer raw]|e];
      cbn [bind TestApp.guarded].
    + destruct (TestApp.convert_sources raw []) as [sources|e]; cbn [bind TestApp.guarded].
      * now intros [= <-].
      * destruct (exn_is_Exception e); discriminate.
    + destruct (exn_is_Exception e); discriminate.
  - intros e -> He. cbn [bind TestApp.guarded]. now rewrite He.
Qed.

Lemma X19_session_created_witness :
  (forall sid r,
      TestApp.create_session SampleApp.rag = Return sid ->
      TestApp.query_documents SampleApp.rag
        {| TestApp.query := "Explain neural networks"; TestApp.session_id := None |}
      = TestApp.Respond r ->
      TestApp.response_session_id r = sid) /\
  (forall e,
      TestApp.create_session SampleApp.rag = Raise e ->
      exn_is_Exception e = true ->
      TestApp.query_documents SampleApp.rag
        {| TestApp.query := "Explain neural networks"; TestApp.session_id := None |}
      = TestApp.HTTPException 500 (exn_str e)).
Proof.
  apply (X19_session_created SampleApp.rag
           {| TestApp.query := "Explain neural networks"; TestApp.session_id := None |}).
  reflexivity.
Defined.

Lemma guarded_shape {A : Type} (body : outcome A) :
  match TestApp.guarded body with
  | TestApp.Respond _ => True
  | TestApp.HTTPException status_code _ => status_code = 500
  | TestApp.Uncaught e => exn_is_Exception e = false
  end.
Proof.
  destruct body as [a|e]; cbn [TestApp.guarded]; [exact I|].
  now destruct (exn_is_Exception e) eqn:He.
Qed.

(** X20: neither endpoint lets an [Exception] through: each one answers
    with its response model or raises [HTTPException] with status 500;
    only what [except Exception] does not catch escapes. *)
Theorem X20_failures_are_500 rag_system request :
  match TestApp.query_documents rag_system request with
  | TestApp.Respond _ => True
  | TestApp.HTTPException status_code _ => status_code = 500
  | TestApp.Uncaught e => exn_is_Exception e = false
  end /\
  match TestApp.get_course_stats rag_system with
  | TestApp.Respond _ => True
  | TestApp.HTTPException status_code _ => status_code = 500
  | TestApp.Uncaught e => exn_is_Exception e = false
  end.
Proof. split; apply guarded_shape. Qed.



(** X22: [GET /api/courses] answers with the two analytics entries; when
    the RAG system raises an [Exception] the request fails with status 500
    and the exception's text, and a missing entry fails it with the name
    of the first missing key, in quotes. *)
Theorem X22_course_stats rag_system :
  match TestApp.get_course_analytics rag_system with
  | Raise e =>
      exn_is_Exception e = true ->
      TestApp.get_course_stats rag_system = TestApp.HTTPException 500 (exn_str e)
  | Return analytics =>
      match TestApp.total_courses analytics, TestApp.course_titles analytics with
      | Some n, Some titles =>
          TestApp.get_course_stats rag_system
          = TestApp.Respond {| TestApp.stats_total_courses := n;
                               TestApp.stats_course_titles := titles |}
      | None, _ =>
          TestApp.get_course_stats rag_system = TestApp.HTTPException 500 "'total_courses'"
      | Some _, None =>
          TestApp.get_course_stats rag_system = TestApp.HTTPException 500 "'course_titles'"
      end
  end.
Proof.
  unfold TestApp.get_course_stats.
  destruct (TestApp.get_course_analytics rag_system) as [analytics|e]; cbn [bind].
  - destruct (TestApp.total_courses analytics), (TestApp.course_titles analytics);
      reflexivity.
  - intros He. cbn [TestApp.guarded]. now rewrite He.
Qed.

Lemma X22_course_stats_witness :
  TestApp.get_course_stats SampleApp.failing_rag = TestApp.HTTPException 500 "Analytics error"
  /\ TestApp.get_course_stats SampleApp.rag
     = TestApp.Respond {| TestApp.stats_total_courses := 2;
                          TestApp.stats_course_titles := ["Test Course 1"; "Test Course 2"] |}.
Proof.
  split.
  - apply (X22_course_stats SampleApp.failing_rag). reflexivity.
  - apply (X22_course_stats SampleApp.rag).
Defined.

(** ** Resetting before a search *)

Lemma last_sources_after_execute self query course_name lesson_number :
  CourseSearchTool.last_sources
    (snd (CourseSearchTool.execute self query course_name lesson_number))
  = match search (CourseSearchTool.store self) query course_name lesson_number with
    | Return results =>
        if truthy_opt (error results) || is_empty results
        then CourseSearchTool.last_sources self
        else map source_of (take (length (documents results)) (metadata results))
    | Raise _ => CourseSearchTool.last_sources self
    end.
Proof.
  destruct (search (CourseSearchTool.store self) query course_name lesson_number)
    as [results|e] eqn:Hs.
  - rewrite (execute_returned _ _ _ _ _ Hs).
    destruct (truthy_opt (error results)); [reflexivity|].
    destruct (is_empty results); reflexivity.
  - unfold CourseSearchTool.execute. rewrite Hs. reflexivity.
Qed.

Lemma dict_get_map {V : Type} (f : string * V -> string * V) k (d : list (string * V)) :
  (forall entry, fst (f entry) = fst entry) ->
  dict_get k (map f d) = (fun v => snd (f (k, v))) <$> dict_get k d.
Proof.
  intros Hf. induction d as [|[k0 v0] d IH]; cbn [map dict_get]; [reflexivity|].
  pose proof (Hf (k0, v0)) as Hk. destruct (f (k0, v0)) as [k1 v1] eqn:Hfe.
  cbn [fst] in Hk. subst k1.
  destruct (String.eqb_spec k k0) as [->|Hne].
  - cbn [fmap option_fmap option_map]. now rewrite Hfe.
  - exact IH.
Qed.

Lemma reset_holds_no_sources m :
  Forall (fun entry => holds_no_sources (snd entry))
         (ToolManager.tools (ToolManager.reset_sources m)).
Proof.
  unfold ToolManager.reset_sources. cbn [ToolManager.tools].
  apply Forall_fmap, Forall_forall. intros [k tool] _. unfold compose. cbn [fst snd].
  destruct (tool_last_sources tool) as [old|] eqn:Hs; cbn [snd]; unfold holds_no_sources.
  - right. apply tool_set_last_sources_read. congruence.
  - now left.
Qed.

(** X23: when the sources are reset before the search tool is run through
    the manager, what [get_last_sources] returns afterwards is decided by
    this run alone. It is the list of sources of the hits of the search
    made with this call's [query], [course_name] and [lesson_number] when
    that search is formatted; it is empty when that search raises, reports
    an error or finds no documents, and when the keyword arguments do not
    fit [execute]. Nothing that an earlier search left on the tool
    enters. *)
Theorem X23_reset_then_search json_loads m tool_name search_tool kwargs :
  NoDup (map fst (ToolManager.tools m)) ->
  dict_get tool_name (ToolManager.tools m) = Some (SearchTool search_tool) ->
  ToolManager.get_last_sources
    (snd (ToolManager.execute_tool json_loads (ToolManager.reset_sources m)
            tool_name kwargs))
  = match kwargs !! "query" with
    | Some query =>
        if bool_decide (dom kwargs ⊆ ({["query"; "course_name"; "lesson_number"]} : gset string))
        then
          match search (CourseSearchTool.store search_tool) query
                  (match kwargs !! "course_name" with Some v => v | None => PyNone end)
                  (match kwargs !! "lesson_number" with Some v => v | None => PyNone end)
          with
          | Return results =>
              if truthy_opt (error results) || is_empty results
              then []
              else map source_of (take (length (documents results)) (metadata results))
          | Raise _ => []
          end
        else []
    | None => []
    end.
Proof.
  intros Hnd Hg.
  set (fresh := CourseSearchTool.set_last_sources search_tool []).
  assert (Hg' : dict_get tool_name (ToolManager.tools (ToolManager.reset_sources m))
                = Some (SearchTool fresh)).
  { unfold ToolManager.reset_sources. cbn [ToolManager.tools].
    rewrite dict_get_map.
    - rewrite Hg. reflexivity.
    - intros [k tool]. cbn [fst snd]. now destruct (tool_last_sources tool). }
  assert (Hnd' : NoDup (map fst (ToolManager.tools (ToolManager.reset_sources m)))).
  { now rewrite reset_sources_keys. }
  assert (Hall : Forall (fun entry => fst entry = tool_name \/ holds_no_sources (snd entry))
                        (ToolManager.tools (ToolManager.reset_sources m))).
  { eapply Forall_impl; [apply reset_holds_no_sources|]. intros entry H. now right. }
  pose proof (get_last_sources_after_search json_loads _ tool_name fresh kwargs
                Hnd' Hg' Hall) as H8.
  cbn [tool_execute] in H8.
  destruct (kwargs !! "query") as [query|];
    destruct (bool_decide (dom kwargs ⊆ ({["query"; "course_name"; "lesson_number"]} : gset string)));
    try (cbn [snd tool_last_sources] in H8; injection H8 as ->; reflexivity).
  pose proof (last_sources_after_execute fresh query
                (default PyNone (kwargs !! "course_name"))
                (default PyNone (kwargs !! "lesson_number"))) as H5.
  destruct (CourseSearchTool.execute fresh query _ _) as [r tool'].
  cbn [snd tool_last_sources] in H8, H5. injection H8 as ->. rewrite H5.
  cbn [fresh CourseSearchTool.set_last_sources CourseSearchTool.store
       CourseSearchTool.last_sources].
  replace (default PyNone (kwargs !! "course_name"))
    with (match kwargs !! "course_name" with Some v => v | None => PyNone end)
    by now destruct (kwargs !! "course_name").
  replace (default PyNone (kwargs !! "lesson_number"))
    with (match kwargs !! "lesson_number" with Some v => v | None => PyNone end)
    by now destruct (kwargs !! "lesson_number").
  reflexivity.
Qed.

(** X23 on the sample manager, whose search tool still holds a source of
    an earlier search: after the reset and a new search, the sources are
    those of the two new hits. *)
Lemma X23_reset_then_search_witness :
  ToolManager.get_last_sources
    (snd (ToolManager.execute_tool Sample.json_loads
            (ToolManager.reset_sources Sample.manager)
            "search_course_content" {["query" := PyStr "q"]}))
  = [source_of Sample.meta1; source_of Sample.meta2].
Proof.
  rewrite (X23_reset_then_search Sample.json_loads Sample.manager "search_course_content"
             (Sample.used_tool Sample.two_hits) {["query" := PyStr "q"]}).
  - vm_compute. reflexivity.
  - apply (bool_decide_unpack _). vm_compute. exact I.
  - reflexivity.
Defined.
